(** * Visas_SCalc: the Schengen schedule calculator

    A shallow embedding of [Visas_SCalc.py]: the validation of the optional
    first trip, the per-tab scheduling loop and the display branch, followed
    by the properties of the schedules the script builds. *)

From Stdlib Require Import ZArith List Bool Lia String.
Import ListNotations.
Local Open Scope Z_scope.

(** ** Dates

    Every [datetime] of the script is a date combined with midnight, so it is
    represented by its proleptic Gregorian ordinal (day 1 is 0001-01-01), the
    number [datetime] itself computes with.  Comparison of two such values is
    comparison of ordinals, and [(a - b).days] is their difference. *)

Definition date := Z.

Definition MINORDINAL : Z := 1.
Definition MAXORDINAL : Z := 3652059.   (* 9999-12-31 *)

Module Calendar.

Definition is_leap (year : Z) : bool :=
  (year mod 4 =? 0) && (negb (year mod 100 =? 0) || (year mod 400 =? 0)).

Definition days_before_year (year : Z) : Z :=
  let y := year - 1 in
  y * 365 + y / 4 - y / 100 + y / 400.

Definition days_in_month (year month : Z) : Z :=
  if month =? 2 then (if is_leap year then 29 else 28)
  else if (month =? 4) || (month =? 6) || (month =? 9) || (month =? 11)
       then 30 else 31.

Fixpoint days_before_month_from (year : Z) (n : nat) (m : Z) : Z :=
  match n with
  | O => 0
  | S n' => days_in_month year m + days_before_month_from year n' (m + 1)
  end.

Definition days_before_month (year month : Z) : Z :=
  days_before_month_from year (Z.to_nat (month - 1)) 1.

(** The ordinal of the calendar day [year]-[month]-[day]. *)
Definition ymd2ord (year month day : Z) : date :=
  days_before_year year + days_before_month year month + day.

End Calendar.

(** ** Outcomes

    [datetime + timedelta] raises [OverflowError] when the result leaves
    [MINORDINAL .. MAXORDINAL]; nothing in the script catches it.  [Timeout]
    is the answer of a loop that was given too little fuel. *)

Inductive exn : Type := OverflowError.

Inductive outcome (A : Type) : Type :=
| Ret (a : A)
| Raise (e : exn)
| Timeout.

Arguments Ret {A} a.
Arguments Raise {A} e.
Arguments Timeout {A}.

Definition bind {A B : Type} (m : outcome A) (k : A -> outcome B) : outcome B :=
  match m with
  | Ret a => k a
  | Raise e => Raise e
  | Timeout => Timeout
  end.

Notation "x <- m ;; k" := (bind m (fun x => k))
  (at level 61, m at next level, right associativity).

Definition omap {A B : Type} (f : A -> B) (m : outcome A) : outcome B :=
  x <- m ;; Ret (f x).

(** [d + timedelta(days=n)] for a [datetime] [d]: the sum of the ordinals when
    it is a date, [OverflowError] otherwise. *)
Definition add_days (d : date) (n : Z) : outcome date :=
  let r := d + n in
  if (MINORDINAL <=? r) && (r <=? MAXORDINAL) then Ret r else Raise OverflowError.

(** ** Rows of the schedule *)

Inductive trip_type : Type :=
| Manual      (* "Manual (Fixed)" *)
| Optimized.  (* "Optimized (Auto)" *)

(** One dict appended to [stays].  The two date columns are kept as dates
    (the script stores their [strftime('%Y-%m-%d')] rendering). *)
Record Row : Type := mkRow {
  Type_ : trip_type;
  Entry : date;
  Exit : date;
  Duration : Z
}.

(** ** Validation of the manual first trip (lines 40-65) *)

Inductive feedback : Type :=
| EntryBeforeStart                (* st.error: entry before visa start *)
| ExitBeforeEntry                 (* st.error: exit before entry *)
| TooLong (manual_duration : Z)   (* st.error: trip is too long *)
| Recorded (manual_duration : Z). (* st.success *)

Definition manual_duration (manual_entry manual_exit : date) : Z :=
  (manual_exit - manual_entry) + 1.

(** The [if/elif/else] chain run when the checkbox is ticked. *)
Definition validate (start manual_entry manual_exit : date) : feedback * bool :=
  if manual_entry <? start then (EntryBeforeStart, false)
  else if manual_exit <? manual_entry then (ExitBeforeEntry, false)
  else if manual_duration manual_entry manual_exit >? 90
       then (TooLong (manual_duration manual_entry manual_exit), false)
       else (Recorded (manual_duration manual_entry manual_exit), true).

(** [manual] is [Some (manual_entry, manual_exit)] when [has_manual_trip] is
    ticked and [None] otherwise (the two dates are then not even bound). *)
Definition has_manual_trip (manual : option (date * date)) : bool :=
  match manual with Some _ => true | None => false end.

Definition valid_manual (start : date) (manual : option (date * date)) : bool :=
  match manual with
  | Some (manual_entry, manual_exit) => snd (validate start manual_entry manual_exit)
  | None => false
  end.

(** ** The scheduling loop (lines 110-135) *)

(** The two variables the loop reads and writes. *)
Record vars : Type := mkVars {
  current : date;
  stays : list Row
}.

Inductive step : Type :=
| Break
| Next (v : vars).

Definition loop_body (visa_end : date) (v : vars) : outcome step :=
  let entry := current v in
  if entry >? visa_end then Ret Break
  else
    potential_exit <- add_days entry 89 ;;
    let exit_date := Z.min potential_exit visa_end in
    let stay_days := (exit_date - entry) + 1 in
    let stays' :=
      if stay_days >? 0
      then stays v ++ [mkRow Optimized entry exit_date stay_days]
      else stays v in
    next_current <- add_days exit_date 91 ;;
    Ret (Next (mkVars next_current stays')).

(** [while True: ...] run for at most [fuel] evaluations of its body. *)
Fixpoint while_true (fuel : nat) (visa_end : date) (v : vars) : outcome vars :=
  match fuel with
  | O => Timeout
  | S fuel' =>
      s <- loop_body visa_end v ;;
      match s with
      | Break => Ret v
      | Next v' => while_true fuel' visa_end v'
      end
  end.

(** Fuel that always suffices: the cursor moves forward at every turn. *)
Definition enough_fuel (visa_end : date) (v : vars) : nat :=
  S (Z.to_nat (visa_end - current v + 1)).

(** ** One tab (lines 82-157) *)

Inductive tab_result : Type :=
| Skipped (visa_end : date)   (* the warning naming [visa_end], then [continue] *)
| Displayed (total_trips : nat) (total_days : Z) (df : list Row)
| NoTravel.                   (* "No travel periods possible." *)

Definition sum_durations (rows : list Row) : Z :=
  fold_right (fun r acc => Duration r + acc) 0 rows.

Definition display (rows : list Row) : tab_result :=
  match rows with
  | [] => NoTravel
  | _ => Displayed (List.length rows) (sum_durations rows) rows
  end.

(** The body of the [for] loop.  [v0] holds [current] and [stays] as the
    previous tab left them (module-level variables outlive an iteration);
    the body returns them as it leaves them. *)
Definition tab_body (start : date) (manual : option (date * date))
    (valid_manual : bool) (v0 : vars) (days : Z) : outcome (vars * tab_result) :=
  t <- add_days start days ;;
  visa_end <- add_days t (-1) ;;
  let v := mkVars (current v0) [] in          (* stays = [] *)
  let v := mkVars start (stays v) in          (* current = start *)
  let rest v :=
    v' <- while_true (enough_fuel visa_end v) visa_end v ;;
    Ret (v', display (stays v')) in
  match manual with
  | Some (manual_entry, manual_exit) =>
      if valid_manual then
        if manual_exit >? visa_end then Ret (v, Skipped visa_end)
        else
          let v := mkVars (current v)
                     (stays v ++ [mkRow Manual manual_entry manual_exit
                                    (manual_duration manual_entry manual_exit)]) in
          current' <- add_days manual_exit 91 ;;
          rest (mkVars current' (stays v))
      else rest v
  | None => rest v
  end.

(** ** The loop over the tabs (lines 67-157) *)

Definition validities : list (string * Z) :=
  [("3 months", 90); ("1 year", 365); ("2 years", 730); ("5 years", 1825)]%string.

(** [for (label, days), tab in zip(...)]: an uncaught exception ends the run,
    the tabs after it are not computed. *)
Fixpoint for_tabs (start : date) (manual : option (date * date))
    (valid_manual : bool) (v : vars) (windows : list (string * Z))
  : list (string * outcome tab_result) :=
  match windows with
  | [] => []
  | (label, days) :: rest =>
      match tab_body start manual valid_manual v days with
      | Ret (v', r) => (label, Ret r) :: for_tabs start manual valid_manual v' rest
      | Raise e => [(label, Raise e)]
      | Timeout => [(label, Timeout)]
      end
  end.

(** The calculation section (lines 67-157), run once the validation above
    has set [valid_manual].  [start] and [manual] are what the widgets
    returned; [v0] is whatever [current] and [stays] hold on entry. *)
Definition calculation (start : date) (manual : option (date * date)) (v0 : vars)
    (windows : list (string * Z)) : list (string * outcome tab_result) :=
  for_tabs start manual (valid_manual start manual) v0 windows.

(** A tab computed on its own. *)
Definition tab (start : date) (manual : option (date * date)) (days : Z)
  : outcome tab_result :=
  omap snd (tab_body start manual (valid_manual start manual) (mkVars start []) days).

(** The row appended for the manual trip. *)
Definition manual_row (manual_entry manual_exit : date) : Row :=
  mkRow Manual manual_entry manual_exit (manual_duration manual_entry manual_exit).

(** The rows a tab shows. *)
Definition rows_of (r : tab_result) : list Row :=
  match r with
  | Displayed _ _ df => df
  | Skipped _ | NoTravel => []
  end.

(** What is shown when every tab is taken on its own and the run
    stops at the first one that does not return. *)
Fixpoint until_abort {A : Type} (l : list (string * outcome A))
  : list (string * outcome A) :=
  match l with
  | [] => []
  | (label, Ret r) :: rest => (label, Ret r) :: until_abort rest
  | x :: _ => [x]
  end.

(** The ordinals that are dates, as every value of a date widget is. *)
Definition is_date (d : Z) : bool := (MINORDINAL <=? d) && (d <=? MAXORDINAL).

(** The dates for which no [datetime] of a tab leaves the supported range. *)
Definition in_range (start : date) (days : Z) : bool :=
  (MINORDINAL <=? start) && (MINORDINAL + 1 <=? start + days)
  && (start + days + 90 <=? MAXORDINAL).

(** Consecutive rows are 91 days apart. *)
Fixpoint chained (rows : list Row) : Prop :=
  match rows with
  | a :: (b :: _) as rest => Entry b = Exit a + 91 /\ chained rest
  | _ => True
  end.

(** ** The schedule in closed form

    What the loop computes, without the loop: from a cursor [entry] it emits a
    stay every 180 days (90 days in, 90 days out) for as long as the stay
    starts within the window, the last one cut at [visa_end]. *)

Fixpoint auto_rows (visa_end entry : date) (n : nat) : list Row :=
  match n with
  | O => []
  | S n' =>
      let exit_date := Z.min (entry + 89) visa_end in
      mkRow Optimized entry exit_date (exit_date - entry + 1)
      :: auto_rows visa_end (entry + 180) n'
  end.

(** The number of turns of the loop that append a row. *)
Definition trips_from (visa_end entry : date) : nat :=
  if entry >? visa_end then O else Z.to_nat ((visa_end - entry) / 180 + 1).

Definition tab_closed_form (start : date) (manual : option (date * date))
    (days : Z) : tab_result :=
  let visa_end := start + days - 1 in
  let auto entry := auto_rows visa_end entry (trips_from visa_end entry) in
  match manual with
  | Some (manual_entry, manual_exit) =>
      if valid_manual start manual then
        if manual_exit >? visa_end then Skipped visa_end
        else display (manual_row manual_entry manual_exit :: auto (manual_exit + 91))
      else display (auto start)
  | None => display (auto start)
  end.

(** A stay of at most 90 days that lies within [lo .. hi]. *)
Definition stay_within (lo hi : date) (r : Row) : Prop :=
  lo <= Entry r /\ Entry r <= Exit r /\ Exit r <= Entry r + 89 /\
  Exit r <= hi /\ Duration r = Exit r - Entry r + 1.

(** The two [st.metric] values of a tab, when it shows them. *)
Definition metrics (o : outcome tab_result) : option (nat * Z) :=
  match o with
  | Ret (Displayed total_trips total_days _) => Some (total_trips, total_days)
  | _ => None
  end.

(** ** Days of presence

    The days of the stay [r] that fall within [from .. to], and their total
    over a schedule. *)

Definition days_within (from to : date) (r : Row) : Z :=
  Z.max 0 (Z.min (Exit r) to - Z.max (Entry r) from + 1).

Definition presence (from to : date) (rows : list Row) : Z :=
  fold_right (fun r acc => days_within from to r + acc) 0 rows.

(** ** Moving a schedule in time *)

Definition shift_row (d : Z) (r : Row) : Row :=
  mkRow (Type_ r) (Entry r + d) (Exit r + d) (Duration r).

Definition shift_manual (d : Z) (manual : option (date * date))
  : option (date * date) :=
  match manual with
  | Some (manual_entry, manual_exit) => Some (manual_entry + d, manual_exit + d)
  | None => None
  end.

Definition shift_result (d : Z) (r : tab_result) : tab_result :=
  match r with
  | Skipped visa_end => Skipped (visa_end + d)
  | Displayed total_trips total_days df =>
      Displayed total_trips total_days (map (shift_row d) df)
  | NoTravel => NoTravel
  end.

(** ** The first-trip widgets (lines 43-45)

    What the two date inputs hold until the user changes them: the entry
    defaults to [start_date], the exit to [start_date + timedelta(days=15)]. *)

Definition default_manual (start_date : date) : outcome (date * date) :=
  manual_exit_date <- add_days start_date 15 ;;
  Ret (start_date, manual_exit_date).

(** * Properties *)

(** ** Date arithmetic *)

Lemma add_days_Ret (d n r : Z) :
  add_days d n = Ret r -> r = d + n /\ MINORDINAL <= r <= MAXORDINAL.
Proof.
  unfold add_days.
  destruct (MINORDINAL <=? d + n) eqn:Hlo; destruct (d + n <=? MAXORDINAL) eqn:Hhi;
    simpl; intros H; inversion H; subst.
  apply Z.leb_le in Hlo. apply Z.leb_le in Hhi. lia.
Qed.

Lemma add_days_ok (d n : Z) :
  MINORDINAL <= d + n <= MAXORDINAL -> add_days d n = Ret (d + n).
Proof.
  intros [Hlo Hhi]. unfold add_days.
  apply Z.leb_le in Hlo. apply Z.leb_le in Hhi. now rewrite Hlo, Hhi.
Qed.

Lemma add_days_no_timeout (d n : Z) : add_days d n <> Timeout.
Proof.
  unfold add_days.
  destruct ((MINORDINAL <=? d + n) && (d + n <=? MAXORDINAL)); discriminate.
Qed.

Lemma in_range_spec (start days : Z) :
  in_range start days = true <->
  MINORDINAL <= start /\ MINORDINAL + 1 <= start + days /\
  start + days + 90 <= MAXORDINAL.
Proof.
  unfold in_range. rewrite !andb_true_iff, !Z.leb_le. tauto.
Qed.

(** ** Validation *)

Lemma valid_manual_true (start manual_entry manual_exit : date) :
  valid_manual start (Some (manual_entry, manual_exit)) = true <->
  start <= manual_entry /\ manual_entry <= manual_exit /\
  manual_duration manual_entry manual_exit <= 90.
Proof.
  unfold valid_manual, validate.
  destruct (manual_entry <? start) eqn:H1;
    [apply Z.ltb_lt in H1 | apply Z.ltb_ge in H1]; simpl.
  { split; [discriminate | lia]. }
  destruct (manual_exit <? manual_entry) eqn:H2;
    [apply Z.ltb_lt in H2 | apply Z.ltb_ge in H2]; simpl.
  { split; [discriminate | lia]. }
  destruct (manual_duration manual_entry manual_exit >? 90) eqn:H3; simpl.
  - apply Z.gtb_lt in H3. split; [discriminate | lia].
  - rewrite Z.gtb_ltb in H3. apply Z.ltb_ge in H3. split; [lia | reflexivity].
Qed.

(** ** One turn of the loop *)

Section Loop.

Variable visa_end : date.

Lemma loop_body_Break (v : vars) :
  loop_body visa_end v = Ret Break <-> current v > visa_end.
Proof.
  unfold loop_body.
  destruct (current v >? visa_end) eqn:Hgt.
  - apply Z.gtb_lt in Hgt. split; [lia | reflexivity].
  - rewrite Z.gtb_ltb in Hgt. apply Z.ltb_ge in Hgt.
    split; [| lia]. intros H.
    destruct (add_days (current v) 89); simpl in H; try discriminate.
    destruct (add_days (Z.min a visa_end) 91); simpl in H; discriminate.
Qed.

(** A turn that goes on has appended one row: the guard [stay_days > 0]
    held. *)
Lemma loop_body_Next (v v' : vars) :
  loop_body visa_end v = Ret (Next v') ->
  current v <= visa_end /\
  let exit_date := Z.min (current v + 89) visa_end in
  current v <= exit_date /\
  v' = mkVars (exit_date + 91)
         (stays v ++ [mkRow Optimized (current v) exit_date
                        (exit_date - current v + 1)]).
Proof.
  unfold loop_body.
  destruct (current v >? visa_end) eqn:Hgt; [discriminate |].
  rewrite Z.gtb_ltb in Hgt. apply Z.ltb_ge in Hgt.
  destruct (add_days (current v) 89) as [pe | |] eqn:Hpe; simpl; try discriminate.
  apply add_days_Ret in Hpe. destruct Hpe as [-> _].
  destruct (add_days (Z.min (current v + 89) visa_end) 91) as [nc | |] eqn:Hnc;
    simpl; try discriminate.
  apply add_days_Ret in Hnc. destruct Hnc as [-> _].
  intros H. inversion H; subst; clear H.
  assert (Hle : current v <= Z.min (current v + 89) visa_end) by lia.
  split; [exact Hgt |]. split; [exact Hle |].
  replace (Z.min (current v + 89) visa_end - current v + 1 >? 0) with true.
  - reflexivity.
  - symmetry. rewrite Z.gtb_ltb. apply Z.ltb_lt. lia.
Qed.

Lemma loop_body_no_timeout (v : vars) : loop_body visa_end v <> Timeout.
Proof.
  unfold loop_body. destruct (current v >? visa_end); [discriminate |].
  destruct (add_days (current v) 89) as [pe | |] eqn:Hpe; simpl; try discriminate.
  - destruct (add_days (Z.min pe visa_end) 91) as [nc | |] eqn:Hnc;
      simpl; try discriminate.
    now apply add_days_no_timeout in Hnc.
  - now apply add_days_no_timeout in Hpe.
Qed.

(** Within the supported range a turn does not raise. *)
Lemma loop_body_in_range (v : vars) :
  MINORDINAL <= current v -> visa_end + 91 <= MAXORDINAL ->
  exists s, loop_body visa_end v = Ret s.
Proof.
  intros Hlo Hhi. unfold loop_body.
  destruct (current v >? visa_end) eqn:Hgt; [now eexists |].
  rewrite Z.gtb_ltb in Hgt. apply Z.ltb_ge in Hgt.
  rewrite add_days_ok by (unfold MINORDINAL in *; lia). simpl.
  rewrite add_days_ok by (unfold MINORDINAL in *; lia). simpl.
  now eexists.
Qed.

(** ** The whole loop *)

Lemma while_true_no_timeout (fuel : nat) : forall v : vars,
  (Z.to_nat (visa_end - current v + 1) < fuel)%nat ->
  while_true fuel visa_end v <> Timeout.
Proof.
  induction fuel as [| fuel IH]; intros v Hfuel; [lia |].
  simpl. destruct (loop_body visa_end v) as [[| v'] | e |] eqn:Hbody; simpl;
    try discriminate.
  - apply IH. apply loop_body_Next in Hbody.
    destruct Hbody as (Hle & Hexit & ->). simpl. lia.
  - now apply loop_body_no_timeout in Hbody.
Qed.

Lemma while_true_more_fuel (fuel : nat) : forall (fuel' : nat) (v : vars),
  (fuel <= fuel')%nat ->
  while_true fuel visa_end v <> Timeout ->
  while_true fuel' visa_end v = while_true fuel visa_end v.
Proof.
  induction fuel as [| fuel IH]; intros fuel' v Hle Hne; [now elim Hne |].
  destruct fuel' as [| fuel']; [lia |].
  simpl in *. destruct (loop_body visa_end v) as [[| v'] | e |]; simpl in *;
    try reflexivity.
  apply IH; [lia | exact Hne].
Qed.

(** Hoare-style rule: what every turn preserves holds when the loop is
    left, and the loop is left with the cursor past [visa_end]. *)
Lemma while_true_invariant (P : vars -> Prop) :
  (forall v v', P v -> loop_body visa_end v = Ret (Next v') -> P v') ->
  forall (fuel : nat) (v v' : vars),
    P v -> while_true fuel visa_end v = Ret v' -> P v' /\ current v' > visa_end.
Proof.
  intros Hstep. induction fuel as [| fuel IH]; intros v v' HP Hrun;
    [discriminate |].
  simpl in Hrun.
  destruct (loop_body visa_end v) as [[| v1] | e |] eqn:Hbody; simpl in Hrun;
    try discriminate.
  - inversion Hrun; subst. split; [exact HP |]. now apply loop_body_Break.
  - apply (IH v1 v'); [| exact Hrun]. now apply (Hstep v).
Qed.

Lemma while_true_in_range (fuel : nat) : forall v : vars,
  MINORDINAL <= current v -> visa_end + 91 <= MAXORDINAL ->
  (Z.to_nat (visa_end - current v + 1) < fuel)%nat ->
  exists v', while_true fuel visa_end v = Ret v'.
Proof.
  induction fuel as [| fuel IH]; intros v Hlo Hhi Hfuel; [lia |].
  simpl. destruct (loop_body_in_range v Hlo Hhi) as [[| v1] Hbody];
    rewrite Hbody; simpl.
  - now eexists.
  - apply loop_body_Next in Hbody. destruct Hbody as (Hle & Hexit & ->).
    apply IH; simpl; lia.
Qed.

End Loop.

(** ** One tab *)

Lemma rows_of_display (rows : list Row) : rows_of (display rows) = rows.
Proof. now destruct rows. Qed.

(** How a tab that returns was computed: either it was skipped, or the loop
    ran from one of its two possible starting points. *)
Lemma tab_body_Ret (start : date) (manual : option (date * date)) (vm : bool)
    (v0 v' : vars) (days : Z) (r : tab_result) :
  tab_body start manual vm v0 days = Ret (v', r) ->
  let visa_end := start + days - 1 in
  (exists me mx, manual = Some (me, mx) /\ vm = true /\ mx > visa_end /\
                 v' = mkVars start [] /\ r = Skipped visa_end)
  \/
  (exists v, while_true (enough_fuel visa_end v) visa_end v = Ret v' /\
             r = display (stays v') /\
             ((v = mkVars start [] /\ (has_manual_trip manual && vm) = false)
              \/
              (exists me mx, manual = Some (me, mx) /\ vm = true /\ mx <= visa_end /\
                             v = mkVars (mx + 91) [manual_row me mx]))).
Proof.
  unfold tab_body.
  destruct (add_days start days) as [t | |] eqn:Ht; simpl; try discriminate.
  apply add_days_Ret in Ht. destruct Ht as [-> _].
  destruct (add_days (start + days) (-1)) as [ve | |] eqn:Hve; simpl;
    try discriminate.
  apply add_days_Ret in Hve. destruct Hve as [-> _].
  replace (start + days + -1) with (start + days - 1) by lia.
  set (visa_end := start + days - 1).
  assert (Hrest : forall v,
    (v' <- while_true (enough_fuel visa_end v) visa_end v ;;
     Ret (v', display (stays v'))) = Ret (v', r) ->
    while_true (enough_fuel visa_end v) visa_end v = Ret v' /\
    r = display (stays v')).
  { intros v H.
    destruct (while_true (enough_fuel visa_end v) visa_end v) as [v1 | |];
      simpl in H; try discriminate.
    inversion H; subst. now split. }
  destruct manual as [[me mx] |]; simpl.
  - destruct vm.
    + destruct (mx >? visa_end) eqn:Hfit.
      * intros H. inversion H; subst. left. exists me, mx.
        apply Z.gtb_lt in Hfit. repeat split; try reflexivity. lia.
      * rewrite Z.gtb_ltb in Hfit. apply Z.ltb_ge in Hfit.
        destruct (add_days mx 91) as [c | |] eqn:Hc; simpl; try discriminate.
        apply add_days_Ret in Hc. destruct Hc as [-> _].
        intros H. apply Hrest in H. destruct H as [Hrun ->].
        right. exists (mkVars (mx + 91) [manual_row me mx]).
        repeat split; [exact Hrun |]. right. exists me, mx. now repeat split.
    + intros H. apply Hrest in H. destruct H as [Hrun ->].
      right. exists (mkVars start []). repeat split; [exact Hrun |]. now left.
  - intros H. apply Hrest in H. destruct H as [Hrun ->].
    right. exists (mkVars start []). repeat split; [exact Hrun |]. now left.
Qed.

Lemma tab_Ret (start : date) (manual : option (date * date)) (days : Z)
    (r : tab_result) :
  tab start manual days = Ret r ->
  exists v', tab_body start manual (valid_manual start manual)
               (mkVars start []) days = Ret (v', r).
Proof.
  unfold tab, omap.
  destruct (tab_body start manual (valid_manual start manual) (mkVars start []) days)
    as [[v' r'] | |]; simpl; try discriminate.
  intros H. inversion H; subst. now exists v'.
Qed.

(** The previous tab's variables are dead on entry. *)
Lemma tab_body_vars (start : date) (manual : option (date * date)) (vm : bool)
    (v0 v1 : vars) (days : Z) :
  tab_body start manual vm v0 days = tab_body start manual vm v1 days.
Proof. reflexivity. Qed.

Lemma for_tabs_until_abort (start : date) (manual : option (date * date))
    (windows : list (string * Z)) : forall v0 : vars,
  for_tabs start manual (valid_manual start manual) v0 windows =
  until_abort (map (fun w => (fst w, tab start manual (snd w))) windows).
Proof.
  induction windows as [| [label days] rest IH]; intros v0; [reflexivity |].
  assert (Htab : tab start manual days =
                 omap snd (tab_body start manual (valid_manual start manual) v0 days))
    by reflexivity.
  simpl. rewrite Htab.
  destruct (tab_body start manual (valid_manual start manual) v0 days)
    as [[v' r] | e |]; simpl.
  - now rewrite IH.
  - reflexivity.
  - reflexivity.
Qed.

(** A property of rows that the manual row has whenever it is appended and
    every row of the loop has, holds of all the rows of a tab. *)
Lemma tab_rows_Forall (Q : Row -> Prop) (start : date)
    (manual : option (date * date)) (days : Z) (r : tab_result) :
  (forall me mx, manual = Some (me, mx) -> valid_manual start manual = true ->
                 mx <= start + days - 1 -> Q (manual_row me mx)) ->
  (forall entry, entry <= start + days - 1 ->
     let exit_date := Z.min (entry + 89) (start + days - 1) in
     Q (mkRow Optimized entry exit_date (exit_date - entry + 1))) ->
  tab start manual days = Ret r ->
  Forall Q (rows_of r).
Proof.
  intros Hmanual Hauto Htab. apply tab_Ret in Htab. destruct Htab as [v' Htab].
  apply tab_body_Ret in Htab. cbv zeta in Htab.
  destruct Htab as [(me & mx & _ & _ & _ & _ & ->) | (v & Hrun & -> & Hinit)];
    [constructor |].
  rewrite rows_of_display.
  apply (while_true_invariant (start + days - 1) (fun v => Forall Q (stays v)))
    in Hrun.
  - apply Hrun.
  - intros u u' HQ Hbody. apply loop_body_Next in Hbody.
    destruct Hbody as (Hle & _ & ->). simpl.
    apply Forall_app. split; [exact HQ |]. constructor; [| constructor].
    now apply Hauto.
  - destruct Hinit as [[-> _] | (me & mx & Hm & Hvm & Hfit & ->)]; simpl.
    + constructor.
    + constructor; [| constructor]. apply Hmanual; auto.
Qed.

(** ** Chains of rows *)

Lemma chained_snoc (rows : list Row) (b : Row) :
  chained rows ->
  (forall rows' a, rows = rows' ++ [a] -> Entry b = Exit a + 91) ->
  chained (rows ++ [b]).
Proof.
  induction rows as [| a [| c rest] IH]; intros Hch Hlast.
  - exact I.
  - simpl. split; [| exact I]. now apply (Hlast []).
  - destruct Hch as [Hac Hch]. split; [exact Hac |].
    apply IH; [exact Hch |].
    intros rows' x Heq. apply (Hlast (a :: rows')). simpl. now rewrite Heq.
Qed.

Lemma chained_nth (rows : list Row) : forall (i : nat) (a b : Row),
  chained rows ->
  nth_error rows i = Some a -> nth_error rows (S i) = Some b ->
  Entry b = Exit a + 91.
Proof.
  induction rows as [| x rest IH]; intros i a b Hch Ha Hb.
  - destruct i; discriminate.
  - destruct rest as [| y rest']; [destruct i; discriminate |].
    destruct Hch as [Hxy Hch]. destruct i as [| i].
    + simpl in Ha, Hb. inversion Ha; inversion Hb; subst. exact Hxy.
    + simpl in Ha. apply (IH i a b Hch Ha). exact Hb.
Qed.

(** ** The schedule of a tab *)

(** C1. In the schedule of any tab, each row enters exactly 91 days after
    the row before it exits; this holds between the manual row and the first
    optimized row as well as between optimized rows. *)
Theorem consecutive_rows_91_days_apart (start : date)
    (manual : option (date * date)) (days : Z) (r : tab_result)
    (i : nat) (a b : Row) :
  tab start manual days = Ret r ->
  nth_error (rows_of r) i = Some a ->
  nth_error (rows_of r) (S i) = Some b ->
  Entry b = Exit a + 91.
Proof.
  intros Htab. apply tab_Ret in Htab. destruct Htab as [v' Htab].
  apply tab_body_Ret in Htab. cbv zeta in Htab.
  destruct Htab as [(me & mx & _ & _ & _ & _ & ->) | (v & Hrun & -> & Hinit)].
  { destruct i; discriminate. }
  rewrite rows_of_display. apply chained_nth.
  apply (while_true_invariant (start + days - 1)
           (fun v => chained (stays v) /\
                     forall rows' x, stays v = rows' ++ [x] ->
                                     current v = Exit x + 91)) in Hrun.
  - apply Hrun.
  - intros u u' [Hch Hlast] Hbody. apply loop_body_Next in Hbody.
    destruct Hbody as (_ & _ & ->). simpl. split.
    + apply chained_snoc; [exact Hch |]. simpl. exact Hlast.
    + intros rows' x Heq. apply app_inj_tail in Heq.
      destruct Heq as [_ <-]. reflexivity.
  - destruct Hinit as [[-> _] | (me & mx & _ & _ & _ & ->)]; simpl.
    + split; [exact I |]. intros [| y rows'] x Heq; discriminate.
    + split; [exact I |]. intros [| y rows'] x Heq.
      * inversion Heq; subst. reflexivity.
      * destruct rows'; discriminate.
Qed.

Lemma consecutive_rows_91_days_apart_witness :
  let start := Calendar.ymd2ord 2025 1 1 in
  let manual := Some (Calendar.ymd2ord 2025 1 1, Calendar.ymd2ord 2025 1 15) in
  let a := mkRow Manual 739252 739266 15 in
  let b := mkRow Optimized 739357 739446 90 in
  let c := mkRow Optimized 739537 739616 80 in
  tab start manual 365 = Ret (Displayed 3 185 [a; b; c]) /\
  Entry b = Exit a + 91 /\ Entry c = Exit b + 91.
Proof.
  intros start manual a b c.
  assert (H : tab start manual 365 = Ret (Displayed 3 185 [a; b; c]))
    by (vm_compute; reflexivity).
  split; [exact H |]. split.
  - apply (consecutive_rows_91_days_apart start manual 365 _ 0 a b H);
      reflexivity.
  - apply (consecutive_rows_91_days_apart start manual 365 _ 1 b c H);
      reflexivity.
Defined.

(** C2. Every row of any tab's schedule, manual or optimized, has
    [Duration = (Exit - Entry) + 1] and a duration between 1 and 90. *)
Theorem row_duration_bounds (start : date) (manual : option (date * date))
    (days : Z) (r : tab_result) (row : Row) :
  tab start manual days = Ret r ->
  In row (rows_of r) ->
  Duration row = (Exit row - Entry row) + 1 /\ 1 <= Duration row <= 90.
Proof.
  intros Htab Hin.
  apply (tab_rows_Forall
           (fun row => Duration row = (Exit row - Entry row) + 1 /\
                       1 <= Duration row <= 90)) in Htab.
  - rewrite Forall_forall in Htab. now apply Htab.
  - intros me mx -> Hvalid _. apply valid_manual_true in Hvalid.
    unfold manual_row, manual_duration in *. simpl. lia.
  - intros entry Hle. simpl. lia.
Qed.

Lemma row_duration_bounds_witness :
  let start := Calendar.ymd2ord 2025 1 1 in
  let manual := Some (Calendar.ymd2ord 2025 1 1, Calendar.ymd2ord 2025 1 15) in
  let a := mkRow Manual 739252 739266 15 in
  let b := mkRow Optimized 739357 739446 90 in
  let c := mkRow Optimized 739537 739616 80 in
  tab start manual 365 = Ret (Displayed 3 185 [a; b; c]) /\
  In c (rows_of (Displayed 3 185 [a; b; c])) /\
  Duration c = (Exit c - Entry c) + 1 /\ 1 <= Duration c <= 90.
Proof.
  intros start manual a b c.
  assert (H : tab start manual 365 = Ret (Displayed 3 185 [a; b; c]))
    by (vm_compute; reflexivity).
  assert (Hin : In c (rows_of (Displayed 3 185 [a; b; c])))
    by (simpl; right; right; left; reflexivity).
  split; [exact H |]. split; [exact Hin |].
  exact (row_duration_bounds start manual 365 _ c H Hin).
Defined.

(** C3. No row of a tab's schedule exits after the window's last day
    [start + days - 1]: optimized stays are cut at it, and a manual trip that
    exits later is never appended. *)
Theorem row_exit_within_window (start : date) (manual : option (date * date))
    (days : Z) (r : tab_result) (row : Row) :
  tab start manual days = Ret r ->
  In row (rows_of r) ->
  Exit row <= start + days - 1.
Proof.
  intros Htab Hin.
  apply (tab_rows_Forall (fun row => Exit row <= start + days - 1)) in Htab.
  - rewrite Forall_forall in Htab. now apply Htab.
  - intros me mx _ _ Hfit. exact Hfit.
  - intros entry Hle. simpl. lia.
Qed.

Lemma row_exit_within_window_witness :
  let start := Calendar.ymd2ord 2025 1 1 in
  let a := mkRow Optimized 739252 739341 90 in
  let b := mkRow Optimized 739432 739521 90 in
  let c := mkRow Optimized 739612 739616 5 in
  tab start None 365 = Ret (Displayed 3 185 [a; b; c]) /\
  In c (rows_of (Displayed 3 185 [a; b; c])) /\
  Exit c <= start + 365 - 1.
Proof.
  intros start a b c.
  assert (H : tab start None 365 = Ret (Displayed 3 185 [a; b; c]))
    by (vm_compute; reflexivity).
  assert (Hin : In c (rows_of (Displayed 3 185 [a; b; c])))
    by (simpl; right; right; left; reflexivity).
  split; [exact H |]. split; [exact Hin |].
  exact (row_exit_within_window start None 365 _ c H Hin).
Defined.

(** ** Tabs within the script *)

Lemma until_abort_app {A : Type} (l1 l2 : list (string * outcome A)) :
  Forall (fun x => exists r, snd x = Ret r) l1 ->
  until_abort (l1 ++ l2) = l1 ++ until_abort l2.
Proof.
  induction 1 as [| [label o] rest [r Hr] _ IH]; [reflexivity |].
  simpl in Hr. subst o. simpl. now rewrite IH.
Qed.

Lemma until_abort_In {A : Type} (x : string * outcome A) :
  forall l : list (string * outcome A), In x (until_abort l) -> In x l.
Proof.
  induction l as [| [label [r | e |]] rest IH]; simpl; intros H.
  - exact H.
  - destruct H as [H | H]; [now left | right; now apply IH].
  - destruct H as [H | []]. now left.
  - destruct H as [H | []]. now left.
Qed.

(** What the calculation shows for a tab is that tab computed on its own. *)
Lemma calculation_In (start : date) (manual : option (date * date)) (v0 : vars)
    (windows : list (string * Z)) (label : string) (o : outcome tab_result) :
  In (label, o) (calculation start manual v0 windows) ->
  exists days, In (label, days) windows /\ o = tab start manual days.
Proof.
  unfold calculation. rewrite for_tabs_until_abort. intros H.
  apply until_abort_In in H. apply in_map_iff in H.
  destruct H as ([label' days] & Heq & Hin). simpl in Heq.
  inversion Heq; subst. now exists days.
Qed.

(** Within the supported range every tab returns. *)
Lemma tab_in_range (start : date) (manual : option (date * date)) (days : Z) :
  in_range start days = true -> exists r, tab start manual days = Ret r.
Proof.
  intros Hr. apply in_range_spec in Hr. destruct Hr as (H1 & H2 & H3).
  unfold MINORDINAL in *.
  assert (Hrest : forall v, 1 <= current v ->
    exists r, omap snd
      (v' <- while_true (enough_fuel (start + days + -1) v) (start + days + -1) v ;;
       Ret (v', display (stays v'))) = Ret r).
  { intros v Hv.
    destruct (while_true_in_range (start + days + -1)
                (enough_fuel (start + days + -1) v) v) as [v' Hv'];
      try (unfold MINORDINAL, enough_fuel; lia).
    rewrite Hv'. simpl. now eexists. }
  unfold tab, tab_body.
  rewrite add_days_ok by (unfold MINORDINAL; lia). simpl.
  rewrite add_days_ok by (unfold MINORDINAL; lia). simpl.
  destruct manual as [[me mx] |]; [| now apply Hrest].
  destruct (valid_manual start (Some (me, mx))) eqn:Hvalid; [| now apply Hrest].
  apply valid_manual_true in Hvalid.
  destruct (mx >? start + days + -1) eqn:Hfit; [simpl; now eexists |].
  rewrite Z.gtb_ltb in Hfit. apply Z.ltb_ge in Hfit.
  rewrite add_days_ok by (unfold MINORDINAL; lia). simpl.
  apply Hrest. simpl. lia.
Qed.

(** C4. When the manual trip is valid but exits after the window's last day,
    the tab is skipped: it shows no row, only the warning naming that last
    day; the loop over the tabs goes on, so the tabs before it are what they
    are on their own and the tabs after it are computed as a calculation
    started at them. *)
Theorem manual_trip_past_window_is_skipped (start manual_entry manual_exit : date)
    (days : Z) :
  is_date start = true -> is_date manual_exit = true -> 1 <= days ->
  valid_manual start (Some (manual_entry, manual_exit)) = true ->
  manual_exit > start + days - 1 ->
  let manual := Some (manual_entry, manual_exit) in
  let skipped := Skipped (start + days - 1) in
  tab start manual days = Ret skipped /\
  rows_of skipped = [] /\
  forall (v0 v1 : vars) (before after : list (string * Z)) (label : string),
    Forall (fun w => exists r, tab start manual (snd w) = Ret r) before ->
    calculation start manual v0 (before ++ (label, days) :: after) =
    map (fun w => (fst w, tab start manual (snd w))) before
    ++ (label, Ret skipped) :: calculation start manual v1 after.
Proof.
  intros Hstart Hexit Hdays Hvalid Hfit manual skipped.
  assert (Htab : tab start manual days = Ret skipped).
  { unfold is_date in *. apply andb_true_iff in Hstart, Hexit.
    rewrite !Z.leb_le in Hstart, Hexit.
    unfold tab, manual. rewrite Hvalid. unfold tab_body.
    rewrite add_days_ok by (unfold MINORDINAL in *; lia). simpl.
    rewrite add_days_ok by (unfold MINORDINAL in *; lia). simpl.
    replace (manual_exit >? start + days + -1) with true.
    - simpl. unfold skipped.
      now replace (start + days + -1) with (start + days - 1) by lia.
    - symmetry. apply Z.gtb_lt. lia. }
  split; [exact Htab |]. split; [reflexivity |].
  intros v0 v1 before after label Hbefore.
  unfold calculation. rewrite !for_tabs_until_abort.
  rewrite map_app, until_abort_app.
  - simpl. now rewrite Htab.
  - apply Forall_forall. intros [label' o] Hin. apply in_map_iff in Hin.
    destruct Hin as ([label'' days'] & Heq & Hin). simpl in Heq.
    inversion Heq; subst. rewrite Forall_forall in Hbefore.
    apply (Hbefore (label', days') Hin).
Qed.

(** Scenario E: a 46-day trip from 2025-03-01 does not fit the 3-month
    window that starts on 2025-01-01; the three longer windows follow. *)
Lemma manual_trip_past_window_is_skipped_witness :
  let start := Calendar.ymd2ord 2025 1 1 in
  let manual_entry := Calendar.ymd2ord 2025 3 1 in
  let manual_exit := Calendar.ymd2ord 2025 4 15 in
  let manual := Some (manual_entry, manual_exit) in
  let skipped := Skipped (Calendar.ymd2ord 2025 3 31) in
  (is_date start = true /\ is_date manual_exit = true /\ 1 <= 90 /\
   valid_manual start manual = true /\ manual_exit > start + 90 - 1) /\
  tab start manual 90 = Ret skipped /\
  calculation start manual (mkVars start []) validities =
    ("3 months"%string, Ret skipped)
    :: calculation start manual (mkVars start [])
         [("1 year"%string, 365); ("2 years"%string, 730);
          ("5 years"%string, 1825)].
Proof.
  intros start manual_entry manual_exit manual skipped.
  assert (Hstart : is_date start = true) by reflexivity.
  assert (Hexit : is_date manual_exit = true) by reflexivity.
  assert (Hdays : 1 <= 90) by lia.
  assert (Hvalid : valid_manual start manual = true) by reflexivity.
  assert (Hfit : manual_exit > start + 90 - 1) by reflexivity.
  split; [now repeat split |].
  destruct (manual_trip_past_window_is_skipped start manual_entry manual_exit 90
              Hstart Hexit Hdays Hvalid Hfit) as (Htab & _ & Hrest).
  split; [exact Htab |].
  apply (Hrest (mkVars start []) (mkVars start []) []
           [("1 year"%string, 365); ("2 years"%string, 730);
            ("5 years"%string, 1825)] "3 months"%string).
  constructor.
Defined.

(** C5. A supplied manual trip is rejected exactly when it enters before the
    visa start, exits before it enters, or lasts more than 90 days; a
    rejected trip leaves no Manual row in any tab, and every tab is what it
    is without the manual trip. *)
Theorem rejected_manual_trip_is_ignored (start manual_entry manual_exit : date) :
  let manual := Some (manual_entry, manual_exit) in
  (valid_manual start manual = false <->
   manual_entry < start \/ manual_exit < manual_entry \/
   manual_duration manual_entry manual_exit > 90) /\
  (valid_manual start manual = false ->
   forall (v0 : vars) (windows : list (string * Z)),
     calculation start manual v0 windows = calculation start None v0 windows /\
     forall label r row,
       In (label, Ret r) (calculation start manual v0 windows) ->
       In row (rows_of r) -> Type_ row <> Manual).
Proof.
  intros manual. split.
  - pose proof (valid_manual_true start manual_entry manual_exit) as Htrue.
    fold manual in Htrue.
    destruct (valid_manual start manual); split; intros H; try reflexivity;
      try discriminate; lia.
  - intros Hinvalid v0 windows. split.
    + unfold calculation. rewrite !for_tabs_until_abort. f_equal.
      apply map_ext. intros [label days]. simpl. f_equal.
      unfold tab. rewrite Hinvalid. reflexivity.
    + intros label r row Hin Hrow. apply calculation_In in Hin.
      destruct Hin as (days & _ & Htab). symmetry in Htab.
      apply (tab_rows_Forall (fun row => Type_ row <> Manual)) in Htab.
      * rewrite Forall_forall in Htab. now apply Htab.
      * intros me mx _ Hvalid _. congruence.
      * intros entry _. simpl. discriminate.
Qed.

(** Scenario D: the trip exits before it enters. *)
Lemma rejected_manual_trip_is_ignored_witness :
  let start := Calendar.ymd2ord 2025 1 1 in
  let manual := Some (Calendar.ymd2ord 2025 2 10, Calendar.ymd2ord 2025 2 1) in
  valid_manual start manual = false /\
  calculation start manual (mkVars start []) validities =
  calculation start None (mkVars start []) validities.
Proof.
  intros start manual.
  assert (Hinvalid : valid_manual start manual = false) by reflexivity.
  split; [exact Hinvalid |].
  apply (proj2 (rejected_manual_trip_is_ignored start
                  (Calendar.ymd2ord 2025 2 10) (Calendar.ymd2ord 2025 2 1))
           Hinvalid (mkVars start []) validities).
Defined.

(** ** Scenarios *)

(** C6. Scenario A: from 2025-01-01, the 90-day window without a manual trip
    holds exactly one row, 2025-01-01 to 2025-03-31, of 90 days; the loop is
    left with the cursor on 2025-06-30, past the window. *)
Theorem scenario_A_single_range :
  let start := Calendar.ymd2ord 2025 1 1 in
  let row := mkRow Optimized (Calendar.ymd2ord 2025 1 1)
               (Calendar.ymd2ord 2025 3 31) 90 in
  tab start None 90 = Ret (Displayed 1 90 [row]) /\
  forall (vm : bool) (v0 : vars),
    tab_body start None vm v0 90 =
    Ret (mkVars (Calendar.ymd2ord 2025 6 30) [row], Displayed 1 90 [row]).
Proof.
  split; [vm_compute; reflexivity |].
  intros vm v0. vm_compute. reflexivity.
Qed.

(** C7. Scenario C: with the valid manual trip 2025-01-01 to 2025-01-15 and
    the 365-day window, the first row is that trip, of kind Manual and 15
    days long, and the second row enters on 2025-04-16, 91 days after
    2025-01-15. *)
Theorem scenario_C_manual_then_optimized :
  let start := Calendar.ymd2ord 2025 1 1 in
  let manual := Some (Calendar.ymd2ord 2025 1 1, Calendar.ymd2ord 2025 1 15) in
  valid_manual start manual = true /\
  exists total_trips total_days second rest,
    tab start manual 365 =
    Ret (Displayed total_trips total_days
           (mkRow Manual (Calendar.ymd2ord 2025 1 1) (Calendar.ymd2ord 2025 1 15) 15
            :: second :: rest)) /\
    Type_ second = Optimized /\
    Entry second = Calendar.ymd2ord 2025 4 16 /\
    Calendar.ymd2ord 2025 4 16 = Calendar.ymd2ord 2025 1 15 + 91.
Proof.
  split; [reflexivity |].
  exists 3%nat, 185,
    (mkRow Optimized (Calendar.ymd2ord 2025 4 16) (Calendar.ymd2ord 2025 7 14) 90),
    [mkRow Optimized (Calendar.ymd2ord 2025 10 13) (Calendar.ymd2ord 2025 12 31) 80].
  repeat split; vm_compute; reflexivity.
Qed.

(** ** Termination *)

(** C8. The scheduling loop terminates from any state and for any window
    end: a turn that goes on moves the cursor at least 91 days forward, the
    loop is left exactly when the cursor is past [visa_end], and with
    [enough_fuel] or more the loop gives one and the same answer, which is
    not [Timeout]; hence no tab times out. *)
Theorem scheduling_loop_terminates (visa_end : date) (v : vars) :
  (forall v', loop_body visa_end v = Ret (Next v') ->
              current v + 91 <= current v') /\
  (loop_body visa_end v = Ret Break <-> current v > visa_end) /\
  (exists res : outcome vars,
      res <> Timeout /\
      forall fuel, (enough_fuel visa_end v <= fuel)%nat ->
                   while_true fuel visa_end v = res) /\
  (forall start manual vm v0 days,
      tab_body start manual vm v0 days <> Timeout).
Proof.
  assert (Hloop : forall ve u,
             while_true (enough_fuel ve u) ve u <> Timeout).
  { intros ve u. apply while_true_no_timeout. unfold enough_fuel. lia. }
  split; [| split; [| split]].
  - intros v' Hbody. apply loop_body_Next in Hbody.
    destruct Hbody as (_ & Hexit & ->). simpl. lia.
  - apply loop_body_Break.
  - exists (while_true (enough_fuel visa_end v) visa_end v).
    split; [apply Hloop |].
    intros fuel Hfuel. apply while_true_more_fuel; [exact Hfuel | apply Hloop].
  - intros start manual vm v0 days. unfold tab_body.
    destruct (add_days start days) as [t | |] eqn:Ht; simpl;
      [| discriminate | now apply add_days_no_timeout in Ht].
    destruct (add_days t (-1)) as [ve | |] eqn:Hve; simpl;
      [| discriminate | now apply add_days_no_timeout in Hve].
    assert (Hrest : forall u,
      (v' <- while_true (enough_fuel ve u) ve u ;;
       Ret (v', display (stays v'))) <> Timeout).
    { intros u. specialize (Hloop ve u).
      destruct (while_true (enough_fuel ve u) ve u); simpl;
        [discriminate | discriminate | now elim Hloop]. }
    destruct manual as [[me mx] |]; [| apply Hrest].
    destruct vm; [| apply Hrest].
    destruct (mx >? ve); [discriminate |].
    destruct (add_days mx 91) as [c | |] eqn:Hc; simpl;
      [apply Hrest | discriminate | now apply add_days_no_timeout in Hc].
Qed.

(** ** Purity *)

(** C9. A tab is a function of the visa start, the manual trip (or none) and
    the window length alone: the variables left by an earlier tab do not
    change what it shows, each entry of the calculation's output is the tab of its
    window computed on its own, and the two totals shown are the number of
    rows and the sum of their durations. *)
Theorem tab_depends_only_on_inputs (start : date) (manual : option (date * date))
    (days : Z) :
  (forall v0 v0' : vars,
      omap snd (tab_body start manual (valid_manual start manual) v0 days) =
      omap snd (tab_body start manual (valid_manual start manual) v0' days)) /\
  (forall (v0 : vars) (windows : list (string * Z)) (label : string)
          (o : outcome tab_result),
      In (label, o) (calculation start manual v0 windows) ->
      exists days', In (label, days') windows /\ o = tab start manual days') /\
  (forall total_trips total_days df,
      tab start manual days = Ret (Displayed total_trips total_days df) ->
      total_trips = List.length df /\ total_days = sum_durations df).
Proof.
  split; [| split].
  - intros v0 v0'. now rewrite (tab_body_vars start manual _ v0 v0').
  - intros v0 windows label o. apply calculation_In.
  - intros total_trips total_days df Htab. apply tab_Ret in Htab.
    destruct Htab as [v' Htab]. apply tab_body_Ret in Htab. cbv zeta in Htab.
    destruct Htab as [(me & mx & _ & _ & _ & _ & Heq) | (v & _ & Heq & _)];
      [discriminate |].
    destruct (stays v') as [| x rest]; simpl in Heq; [discriminate |].
    inversion Heq; subst. now split.
Qed.

(** ** The guard on [stay_days] *)

(** C10. Whenever the loop gets past its exit test, [stay_days] is at least
    1, so the guard [stay_days > 0] holds and every turn that goes on has
    appended a row; hence a tab with [days >= 1] and no manual trip taken
    into account never shows an empty schedule, and shows one whenever its
    dates are within [datetime]'s range. *)
Theorem stay_days_guard_always_holds :
  (forall (visa_end : date) (v : vars) (potential_exit : date),
      (current v >? visa_end) = false ->
      add_days (current v) 89 = Ret potential_exit ->
      let exit_date := Z.min potential_exit visa_end in
      let stay_days := (exit_date - current v) + 1 in
      1 <= stay_days /\ (stay_days >? 0) = true) /\
  (forall (visa_end : date) (v v' : vars),
      loop_body visa_end v = Ret (Next v') ->
      exists row, stays v' = stays v ++ [row] /\ 1 <= Duration row) /\
  (forall (start : date) (manual : option (date * date)) (days : Z),
      valid_manual start manual = false -> 1 <= days ->
      (forall r, tab start manual days = Ret r ->
         exists total_trips total_days df,
           r = Displayed total_trips total_days df /\
           (1 <= total_trips)%nat /\ df <> []) /\
      (in_range start days = true -> exists r, tab start manual days = Ret r)).
Proof.
  split; [| split].
  - intros visa_end v potential_exit Hle Hpe. cbv zeta.
    rewrite Z.gtb_ltb in Hle. apply Z.ltb_ge in Hle.
    apply add_days_Ret in Hpe. destruct Hpe as [-> _].
    split; [lia |]. rewrite Z.gtb_ltb. apply Z.ltb_lt. lia.
  - intros visa_end v v' Hbody. apply loop_body_Next in Hbody.
    destruct Hbody as (_ & Hexit & ->). simpl. eexists. split; [reflexivity |].
    simpl. lia.
  - intros start manual days Hinvalid Hdays. split; [| apply tab_in_range].
    intros r Htab. apply tab_Ret in Htab. destruct Htab as [v' Htab].
    apply tab_body_Ret in Htab. cbv zeta in Htab.
    destruct Htab as [(me & mx & _ & Hvm & _) | (v & Hrun & -> & Hinit)];
      [congruence |].
    destruct Hinit as [[-> _] | (me & mx & _ & Hvm & _)]; [| congruence].
    apply (while_true_invariant (start + days - 1)
             (fun v => stays v <> [] \/ current v <= start + days - 1)) in Hrun.
    + destruct Hrun as [[Hne | Hle] Hpast]; [| lia].
      destruct (stays v') as [| x rest] eqn:Hst; [now elim Hne |].
      simpl. do 3 eexists. split; [reflexivity |]. split; [lia | discriminate].
    + intros u u' _ Hbody. apply loop_body_Next in Hbody.
      destruct Hbody as (_ & _ & ->). left. simpl.
      destruct (stays u); discriminate.
    + right. simpl. lia.
Qed.

Lemma stay_days_guard_always_holds_witness :
  let start := Calendar.ymd2ord 2025 1 1 in
  (valid_manual start None = false /\ 1 <= 90 /\ in_range start 90 = true) /\
  exists r, tab start None 90 = Ret r.
Proof.
  intros start. split; [repeat split; try reflexivity; lia |].
  apply (proj2 (proj2 stay_days_guard_always_holds) start None 90);
    [reflexivity | lia | reflexivity].
Defined.


(** * Further properties *)

(** ** The loop against its closed form *)

Lemma trips_from_past (visa_end entry : date) :
  entry > visa_end -> trips_from visa_end entry = O.
Proof.
  intros H. unfold trips_from.
  replace (entry >? visa_end) with true; [reflexivity |].
  symmetry. apply Z.gtb_lt. lia.
Qed.

Lemma trips_from_within (visa_end entry : date) :
  entry <= visa_end ->
  trips_from visa_end entry = S (trips_from visa_end (entry + 180)).
Proof.
  intros H. unfold trips_from.
  replace (entry >? visa_end) with false
    by (symmetry; rewrite Z.gtb_ltb; apply Z.ltb_ge; lia).
  destruct (entry + 180 >? visa_end) eqn:Hnext.
  - apply Z.gtb_lt in Hnext.
    rewrite Z.div_small by lia. reflexivity.
  - rewrite Z.gtb_ltb in Hnext. apply Z.ltb_ge in Hnext.
    replace (visa_end - entry) with ((visa_end - (entry + 180)) + 1 * 180) by lia.
    rewrite Z.div_add by lia.
    assert (0 <= (visa_end - (entry + 180)) / 180) by (apply Z.div_pos; lia).
    lia.
Qed.

Lemma trips_from_positive (visa_end entry : date) (n : nat) :
  trips_from visa_end entry = S n ->
  entry <= visa_end /\ trips_from visa_end (entry + 180) = n.
Proof.
  intros H. destruct (Z_le_gt_dec entry visa_end) as [Hle | Hgt].
  - split; [exact Hle |]. rewrite (trips_from_within _ _ Hle) in H. congruence.
  - rewrite trips_from_past in H by exact Hgt. discriminate.
Qed.

(** One turn of the loop, seen from the closed form. *)
Lemma auto_rows_unfold (visa_end entry : date) :
  entry <= visa_end ->
  let exit_date := Z.min (entry + 89) visa_end in
  auto_rows visa_end entry (trips_from visa_end entry) =
  mkRow Optimized entry exit_date (exit_date - entry + 1)
  :: auto_rows visa_end (exit_date + 91) (trips_from visa_end (exit_date + 91)).
Proof.
  intros Hle exit_date. rewrite (trips_from_within _ _ Hle). simpl.
  fold exit_date. f_equal.
  destruct (Z_le_gt_dec (entry + 89) visa_end) as [Hfull | Hcut].
  - replace (exit_date + 91) with (entry + 180) by (unfold exit_date; lia).
    reflexivity.
  - rewrite !trips_from_past by (unfold exit_date; lia). reflexivity.
Qed.

Lemma while_true_closed_form (visa_end : date) (fuel : nat) :
  forall v v' : vars,
    while_true fuel visa_end v = Ret v' ->
    stays v' =
    stays v ++ auto_rows visa_end (current v) (trips_from visa_end (current v)).
Proof.
  induction fuel as [| fuel IH]; intros v v' Hrun; [discriminate |].
  simpl in Hrun.
  destruct (loop_body visa_end v) as [[| v1] | e |] eqn:Hbody; simpl in Hrun;
    try discriminate.
  - inversion Hrun; subst. apply loop_body_Break in Hbody.
    rewrite trips_from_past by exact Hbody. simpl. now rewrite app_nil_r.
  - apply loop_body_Next in Hbody. destruct Hbody as (Hle & _ & ->).
    apply IH in Hrun. simpl in Hrun. rewrite Hrun.
    rewrite (auto_rows_unfold _ _ Hle). cbv zeta.
    rewrite <- app_assoc. reflexivity.
Qed.

Lemma tab_closed_form_Ret (start : date) (manual : option (date * date))
    (days : Z) (r : tab_result) :
  tab start manual days = Ret r -> r = tab_closed_form start manual days.
Proof.
  intros Htab. apply tab_Ret in Htab. destruct Htab as [v' Htab].
  apply tab_body_Ret in Htab. cbv zeta in Htab. unfold tab_closed_form.
  destruct Htab as [(me & mx & -> & Hvm & Hfit & _ & ->)
                   | (v & Hrun & -> & [[-> Hno] | (me & mx & -> & Hvm & Hfit & ->)])].
  - rewrite Hvm. replace (mx >? start + days - 1) with true; [reflexivity |].
    symmetry. apply Z.gtb_lt. lia.
  - apply while_true_closed_form in Hrun. simpl in Hrun. rewrite Hrun.
    destruct manual as [[me mx] |]; [| reflexivity].
    change (valid_manual start (Some (me, mx)) = false) in Hno.
    now rewrite Hno.
  - apply while_true_closed_form in Hrun. simpl in Hrun. rewrite Hrun.
    rewrite Hvm.
    replace (mx >? start + days - 1) with false; [reflexivity |].
    symmetry. rewrite Z.gtb_ltb. apply Z.ltb_ge. lia.
Qed.

(** ** Shape of the closed form *)

Lemma stay_within_weaken (lo lo' hi : date) (r : Row) :
  lo' <= lo -> stay_within lo hi r -> stay_within lo' hi r.
Proof. unfold stay_within. intros Hle H. repeat split; try apply H. lia. Qed.

Lemma auto_rows_facts (visa_end : date) : forall (n : nat) (entry : date),
  trips_from visa_end entry = n ->
  chained (auto_rows visa_end entry n) /\
  Forall (fun r => Type_ r = Optimized /\ stay_within entry visa_end r)
    (auto_rows visa_end entry n) /\
  (forall a rest, auto_rows visa_end entry n = a :: rest -> Entry a = entry).
Proof.
  induction n as [| n IH]; intros entry Hn.
  - simpl. repeat split; [constructor | discriminate].
  - apply trips_from_positive in Hn. destruct Hn as [Hle Hn].
    destruct (IH (entry + 180) Hn) as (Hch & Hall & Hhead).
    simpl. repeat split.
    + destruct (auto_rows visa_end (entry + 180) n) as [| b rest] eqn:Hrows;
        [exact I |].
      split; [| exact Hch]. rewrite (Hhead b rest eq_refl). simpl.
      destruct n as [| n']; [discriminate |].
      apply trips_from_positive in Hn. lia.
    + constructor.
      * unfold stay_within. simpl. split; [reflexivity |]. lia.
      * eapply Forall_impl; [| exact Hall]. intros r [Hty Hr].
        split; [exact Hty |]. apply (stay_within_weaken (entry + 180)); [lia | exact Hr].
    + intros a rest Heq. inversion Heq; subst. reflexivity.
Qed.

(** The rows of a tab form a chain of stays inside the window, and only the
    first of them can be the manual one. *)
Lemma tab_rows_facts (start : date) (manual : option (date * date)) (days : Z)
    (r : tab_result) :
  tab start manual days = Ret r ->
  chained (rows_of r) /\
  Forall (stay_within start (start + days - 1)) (rows_of r) /\
  Forall (fun x => Type_ x = Optimized) (tl (rows_of r)).
Proof.
  intros Htab. apply tab_closed_form_Ret in Htab. subst r.
  unfold tab_closed_form.
  set (visa_end := start + days - 1).
  assert (Hauto : forall entry, start <= entry ->
    let rows := auto_rows visa_end entry (trips_from visa_end entry) in
    chained rows /\ Forall (stay_within start visa_end) rows /\
    Forall (fun x => Type_ x = Optimized) rows /\
    (forall a rest, rows = a :: rest -> Entry a = entry)).
  { intros entry Hle rows.
    destruct (auto_rows_facts visa_end _ entry eq_refl) as (Hch & Hall & Hhead).
    repeat split; [exact Hch | | | exact Hhead].
    - eapply Forall_impl; [| exact Hall]. intros x [_ Hx].
      apply (stay_within_weaken entry); [lia | exact Hx].
    - eapply Forall_impl; [| exact Hall]. intros x [Hx _]. exact Hx. }
  assert (Hplain :
    let rows := rows_of (display (auto_rows visa_end start
                                    (trips_from visa_end start))) in
    chained rows /\ Forall (stay_within start visa_end) rows /\
    Forall (fun x => Type_ x = Optimized) (tl rows)).
  { cbv zeta. rewrite rows_of_display.
    destruct (Hauto start (Z.le_refl _)) as (Hch & Hall & Hty & _).
    repeat split; [exact Hch | exact Hall |].
    destruct (auto_rows visa_end start (trips_from visa_end start));
      [constructor | now inversion Hty]. }
  destruct manual as [[me mx] |]; [| exact Hplain].
  destruct (valid_manual start (Some (me, mx))) eqn:Hvm; [| exact Hplain].
  destruct (mx >? visa_end) eqn:Hfit; [simpl; repeat split; constructor |].
  rewrite Z.gtb_ltb in Hfit. apply Z.ltb_ge in Hfit.
  apply valid_manual_true in Hvm. unfold manual_duration in Hvm.
  rewrite rows_of_display.
  destruct (Hauto (mx + 91)) as (Hch & Hall & Hty & Hhead); [lia |].
  repeat split.
  - destruct (auto_rows visa_end (mx + 91) (trips_from visa_end (mx + 91)))
      as [| b rest] eqn:Hrows; [exact I |].
    split; [| exact Hch]. now rewrite (Hhead b rest eq_refl).
  - constructor; [| exact Hall].
    unfold stay_within, manual_row, manual_duration. simpl. lia.
  - exact Hty.
Qed.

(** ** Chains of stays *)

Lemma chained_after_head (rows : list Row) : forall a b : Row,
  chained (a :: rows) -> Forall (fun r => Entry r <= Exit r) rows ->
  In b rows -> Exit a + 91 <= Entry b.
Proof.
  induction rows as [| x rest IH]; intros a b Hch Hall Hin; [destruct Hin |].
  destruct Hch as [Hax Hch]. inversion Hall as [| ? ? Hx Hrest]; subst.
  destruct Hin as [<- | Hin]; [lia |].
  specialize (IH x b Hch Hrest Hin). lia.
Qed.

Lemma chained_tail (a : Row) (rows : list Row) :
  chained (a :: rows) -> chained rows.
Proof. destruct rows as [| b rest]; [intros _; exact I | intros [_ H]; exact H]. Qed.

Lemma chained_apart (rows : list Row) : forall (i j : nat) (a b : Row),
  chained rows -> Forall (fun r => Entry r <= Exit r) rows ->
  nth_error rows i = Some a -> nth_error rows j = Some b -> (i < j)%nat ->
  Exit a + 91 <= Entry b.
Proof.
  induction rows as [| x rest IH]; intros i j a b Hch Hall Ha Hb Hlt.
  - destruct i; discriminate.
  - inversion Hall as [| ? ? Hx Hrest]; subst.
    destruct j as [| j]; [lia |]. simpl in Hb.
    destruct i as [| i].
    + simpl in Ha. inversion Ha; subst.
      apply (chained_after_head rest a b Hch Hrest).
      now apply nth_error_In with j.
    + simpl in Ha. apply (IH i j a b); auto.
      * now apply chained_tail with x.
      * lia.
Qed.

(** ** Days of presence in a window of 180 days *)

Lemma presence_nonneg (from to : date) (rows : list Row) :
  0 <= presence from to rows.
Proof.
  induction rows as [| a rest IH]; simpl; [lia |].
  unfold days_within. lia.
Qed.

Lemma presence_180 (w : date) (rows : list Row) :
  chained rows ->
  Forall (fun r => Entry r <= Exit r /\ Exit r <= Entry r + 89) rows ->
  presence w (w + 179) rows <= 90 /\
  forall a rest, rows = a :: rest ->
    presence w (w + 179) rows <= Z.max 0 (w + 180 - Entry a).
Proof.
  induction rows as [| a [| b rest] IH]; intros Hch Hall.
  - simpl. split; [lia | discriminate].
  - inversion Hall as [| ? ? Ha _]; subst. simpl. unfold days_within.
    split; [lia |]. intros x rest Heq. inversion Heq; subst. lia.
  - inversion Hall as [| ? ? Ha Hrest]; subst. destruct Hch as [Hab Hch].
    destruct (IH Hch Hrest) as [Hmax Hnext].
    specialize (Hnext b rest eq_refl).
    pose proof (presence_nonneg w (w + 179) (b :: rest)) as Hpos.
    change (presence w (w + 179) (a :: b :: rest))
      with (days_within w (w + 179) a + presence w (w + 179) (b :: rest)).
    unfold days_within.
    split; [lia |]. intros x rest' Heq. inversion Heq; subst. lia.
Qed.

Lemma sum_durations_window (lo hi : date) (rows : list Row) :
  chained rows -> Forall (stay_within lo hi) rows ->
  Z.of_nat (List.length rows) <= sum_durations rows <=
    90 * Z.of_nat (List.length rows) /\
  forall a rest, rows = a :: rest -> sum_durations rows <= hi - Entry a + 1.
Proof.
  unfold stay_within.
  induction rows as [| a [| b rest] IH]; intros Hch Hall.
  - simpl. split; [lia | discriminate].
  - inversion Hall as [| ? ? Ha _]; subst. simpl.
    split; [lia |]. intros x rest Heq. inversion Heq; subst. lia.
  - inversion Hall as [| ? ? Ha Hrest]; subst. destruct Hch as [Hab Hch].
    destruct (IH Hch Hrest) as [Hsum Hnext].
    specialize (Hnext b rest eq_refl).
    change (sum_durations (a :: b :: rest))
      with (Duration a + sum_durations (b :: rest)).
    change (List.length (a :: b :: rest)) with (S (List.length (b :: rest))).
    split; [lia |]. intros x rest' Heq. inversion Heq; subst. lia.
Qed.

(** ** What a user can rely on *)

(** X1. The stays of a schedule come in chronological order and never
    overlap: a later row enters at least 91 days after an earlier one
    exits. *)
Theorem rows_in_order_and_apart (start : date) (manual : option (date * date))
    (days : Z) (r : tab_result) (i j : nat) (a b : Row) :
  tab start manual days = Ret r ->
  nth_error (rows_of r) i = Some a ->
  nth_error (rows_of r) j = Some b ->
  (i < j)%nat ->
  Entry a <= Exit a /\ Exit a + 91 <= Entry b /\ Entry b <= Exit b.
Proof.
  intros Htab Ha Hb Hlt. apply tab_rows_facts in Htab.
  destruct Htab as (Hch & Hall & _).
  assert (Hwf : Forall (fun r => Entry r <= Exit r) (rows_of r)).
  { eapply Forall_impl; [| exact Hall]. unfold stay_within. intros x Hx. lia. }
  rewrite Forall_forall in Hwf.
  split; [apply Hwf; now apply nth_error_In with i |].
  split; [| apply Hwf; now apply nth_error_In with j].
  rewrite <- Forall_forall in Hwf.
  now apply (chained_apart (rows_of r) i j a b).
Qed.

Lemma rows_in_order_and_apart_witness :
  let start := Calendar.ymd2ord 2025 1 1 in
  let manual := Some (Calendar.ymd2ord 2025 1 1, Calendar.ymd2ord 2025 1 15) in
  let a := mkRow Manual 739252 739266 15 in
  let b := mkRow Optimized 739357 739446 90 in
  let c := mkRow Optimized 739537 739616 80 in
  tab start manual 365 = Ret (Displayed 3 185 [a; b; c]) /\
  Entry a <= Exit a /\ Exit a + 91 <= Entry c /\ Entry c <= Exit c.
Proof.
  intros start manual a b c.
  assert (H : tab start manual 365 = Ret (Displayed 3 185 [a; b; c]))
    by (vm_compute; reflexivity).
  split; [exact H |].
  apply (rows_in_order_and_apart start manual 365 _ 0 2 a c H);
    [reflexivity | reflexivity | lia].
Defined.

(** X2. Every stay of a schedule, manual or optimized, lies within the
    validity of the visa: it enters on the start date at the earliest and
    exits on the last valid day at the latest. *)
Theorem rows_within_validity (start : date) (manual : option (date * date))
    (days : Z) (r : tab_result) (row : Row) :
  tab start manual days = Ret r ->
  In row (rows_of r) ->
  start <= Entry row /\ Entry row <= Exit row /\ Exit row <= start + days - 1.
Proof.
  intros Htab Hin. apply tab_rows_facts in Htab.
  destruct Htab as (_ & Hall & _). rewrite Forall_forall in Hall.
  specialize (Hall row Hin). unfold stay_within in Hall. lia.
Qed.

Lemma rows_within_validity_witness :
  let start := Calendar.ymd2ord 2025 1 1 in
  let manual := Some (Calendar.ymd2ord 2025 3 1, Calendar.ymd2ord 2025 4 15) in
  let a := mkRow Manual 739311 739356 46 in
  let b := mkRow Optimized 739447 739536 90 in
  tab start manual 365 = Ret (Displayed 2 136 [a; b]) /\
  In a (rows_of (Displayed 2 136 [a; b])) /\
  start <= Entry a /\ Entry a <= Exit a /\ Exit a <= start + 365 - 1.
Proof.
  intros start manual a b.
  assert (H : tab start manual 365 = Ret (Displayed 2 136 [a; b]))
    by (vm_compute; reflexivity).
  assert (Hin : In a (rows_of (Displayed 2 136 [a; b])))
    by (simpl; left; reflexivity).
  split; [exact H |]. split; [exact Hin |].
  exact (rows_within_validity start manual 365 _ a H Hin).
Defined.

(** X3. Every schedule respects the 90/180-day rule: whatever window of 180
    consecutive days [w .. w + 179] is taken, the days of stay that fall
    within it add up to 90 at most. *)
Theorem schedule_respects_90_180 (start : date) (manual : option (date * date))
    (days : Z) (r : tab_result) (w : date) :
  tab start manual days = Ret r ->
  presence w (w + 179) (rows_of r) <= 90.
Proof.
  intros Htab. apply tab_rows_facts in Htab. destruct Htab as (Hch & Hall & _).
  apply presence_180; [exact Hch |].
  eapply Forall_impl; [| exact Hall]. unfold stay_within. intros x Hx. lia.
Qed.

(** The window that starts in the middle of the first stay of a 2-year visa
    holds 45 days of it and 45 days of the second stay. *)
Lemma schedule_respects_90_180_witness :
  let start := Calendar.ymd2ord 2025 1 1 in
  exists r, tab start None 730 = Ret r /\
            presence (start + 45) (start + 45 + 179) (rows_of r) = 90 /\
            presence (start + 45) (start + 45 + 179) (rows_of r) <= 90.
Proof.
  intros start.
  destruct (tab start None 730) as [r | |] eqn:Htab;
    [| vm_compute in Htab; discriminate | vm_compute in Htab; discriminate].
  exists r. split; [reflexivity |]. split.
  - vm_compute in Htab. inversion Htab; subst. vm_compute. reflexivity.
  - exact (schedule_respects_90_180 start None 730 r (start + 45) Htab).
Defined.

Lemma tab_Displayed (start : date) (manual : option (date * date)) (days : Z)
    (total_trips : nat) (total_days : Z) (df : list Row) :
  tab start manual days = Ret (Displayed total_trips total_days df) ->
  total_trips = List.length df /\ total_days = sum_durations df /\ df <> [].
Proof.
  intros Htab. apply tab_closed_form_Ret in Htab.
  assert (Hdisplay : forall rows,
    Displayed total_trips total_days df = display rows ->
    total_trips = List.length df /\ total_days = sum_durations df /\ df <> []).
  { intros [| x rest] Heq; [discriminate |]. simpl in Heq.
    inversion Heq; subst. repeat split. discriminate. }
  unfold tab_closed_form in Htab.
  destruct manual as [[me mx] |]; [| now apply Hdisplay in Htab].
  destruct (valid_manual start (Some (me, mx))); [| now apply Hdisplay in Htab].
  destruct (mx >? start + days - 1); [discriminate | now apply Hdisplay in Htab].
Qed.

(** X4. A Manual row can only be the first row of a schedule: every later
    row is Optimized, a first row of kind Manual is the validated manual
    trip with its own dates and length, and a valid manual trip that ends
    within the window is always that first row. *)
Theorem manual_row_is_first_only (start : date) (manual : option (date * date))
    (days : Z) (r : tab_result) :
  tab start manual days = Ret r ->
  (forall i row, nth_error (rows_of r) (S i) = Some row ->
                 Type_ row = Optimized) /\
  (forall row, nth_error (rows_of r) 0 = Some row -> Type_ row = Manual ->
     exists me mx, manual = Some (me, mx) /\
                   valid_manual start manual = true /\
                   row = mkRow Manual me mx ((mx - me) + 1)) /\
  (forall me mx, manual = Some (me, mx) ->
     valid_manual start manual = true -> mx <= start + days - 1 ->
     nth_error (rows_of r) 0 = Some (mkRow Manual me mx ((mx - me) + 1))).
Proof.
  intros Htab. split; [| split].
  - intros i row Hnth. apply tab_rows_facts in Htab.
    destruct Htab as (_ & _ & Htl). rewrite Forall_forall in Htl.
    apply Htl. apply nth_error_In with i.
    destruct (rows_of r); [destruct i; discriminate | exact Hnth].
  - intros row Hnth Hty. apply tab_closed_form_Ret in Htab. subst r.
    unfold tab_closed_form in Hnth.
    assert (Hauto : forall entry,
      nth_error (rows_of (display (auto_rows (start + days - 1) entry
                   (trips_from (start + days - 1) entry)))) 0 = Some row ->
      False).
    { intros entry H. rewrite rows_of_display in H.
      destruct (auto_rows_facts (start + days - 1) _ entry eq_refl)
        as (_ & Hall & _).
      apply nth_error_In in H. rewrite Forall_forall in Hall.
      destruct (Hall row H) as [Hopt _]. congruence. }
    destruct manual as [[me mx] |]; [| now apply Hauto in Hnth].
    destruct (valid_manual start (Some (me, mx))) eqn:Hvm;
      [| now apply Hauto in Hnth].
    destruct (mx >? start + days - 1); [discriminate |].
    rewrite rows_of_display in Hnth. simpl in Hnth. inversion Hnth; subst.
    exists me, mx. repeat split.
  - intros me mx -> Hvm Hfit. apply tab_closed_form_Ret in Htab. subst r.
    unfold tab_closed_form. rewrite Hvm.
    replace (mx >? start + days - 1) with false
      by (symmetry; rewrite Z.gtb_ltb; apply Z.ltb_ge; lia).
    rewrite rows_of_display. reflexivity.
Qed.

Lemma manual_row_is_first_only_witness :
  let start := Calendar.ymd2ord 2025 1 1 in
  let manual := Some (Calendar.ymd2ord 2025 3 1, Calendar.ymd2ord 2025 4 15) in
  let a := mkRow Manual 739311 739356 46 in
  let b := mkRow Optimized 739447 739536 90 in
  tab start manual 365 = Ret (Displayed 2 136 [a; b]) /\
  nth_error (rows_of (Displayed 2 136 [a; b])) 0 =
    Some (mkRow Manual 739311 739356 ((739356 - 739311) + 1)) /\
  Type_ b = Optimized.
Proof.
  intros start manual a b.
  assert (H : tab start manual 365 = Ret (Displayed 2 136 [a; b]))
    by (vm_compute; reflexivity).
  destruct (manual_row_is_first_only start manual 365 _ H)
    as (Hlater & _ & Hfirst).
  split; [exact H |]. split.
  - apply (Hfirst 739311 739356); [reflexivity | reflexivity | vm_compute; discriminate].
  - apply (Hlater 0%nat b). reflexivity.
Defined.



(** X6. Optimized stays are as long as they can be: an optimized row lasts
    90 days unless it ends on the last valid day of the visa, and an
    optimized row that is followed by another row always lasts 90 days. *)
Theorem optimized_stays_are_maximal (start : date)
    (manual : option (date * date)) (days : Z) (r : tab_result) :
  tab start manual days = Ret r ->
  (forall row, In row (rows_of r) -> Type_ row = Optimized ->
     Duration row = 90 \/ Exit row = start + days - 1) /\
  (forall i a b, nth_error (rows_of r) i = Some a ->
     nth_error (rows_of r) (S i) = Some b ->
     Type_ a = Optimized -> Duration a = 90).
Proof.
  intros Htab.
  assert (Hcut : forall row, In row (rows_of r) -> Type_ row = Optimized ->
            Duration row = 90 \/ Exit row = start + days - 1).
  { intros row Hin.
    apply (tab_rows_Forall
             (fun row => Type_ row = Optimized ->
                         Duration row = 90 \/ Exit row = start + days - 1))
      in Htab.
    - rewrite Forall_forall in Htab. now apply Htab.
    - intros me mx _ _ _. discriminate.
    - intros entry _. simpl. lia. }
  split; [exact Hcut |].
  intros i a b Ha Hb Hty.
  destruct (Hcut a (nth_error_In _ _ Ha) Hty) as [Hfull | Hend]; [exact Hfull |].
  apply tab_rows_facts in Htab. destruct Htab as (Hch & Hall & _).
  pose proof (chained_nth _ i a b Hch Ha Hb) as Hab.
  rewrite Forall_forall in Hall.
  pose proof (Hall b (nth_error_In _ _ Hb)) as Hin. unfold stay_within in Hin.
  lia.
Qed.

Lemma optimized_stays_are_maximal_witness :
  let start := Calendar.ymd2ord 2025 1 1 in
  let a := mkRow Optimized 739252 739341 90 in
  let b := mkRow Optimized 739432 739521 90 in
  let c := mkRow Optimized 739612 739616 5 in
  tab start None 365 = Ret (Displayed 3 185 [a; b; c]) /\
  Duration b = 90 /\ (Duration c = 90 \/ Exit c = start + 365 - 1).
Proof.
  intros start a b c.
  assert (H : tab start None 365 = Ret (Displayed 3 185 [a; b; c]))
    by (vm_compute; reflexivity).
  destruct (optimized_stays_are_maximal start None 365 _ H) as [Hcut Hfull].
  split; [exact H |]. split.
  - apply (Hfull 1%nat b c); reflexivity.
  - apply (Hcut c); [simpl; right; right; left |]; reflexivity.
Defined.

(** X7. The two totals a tab shows are bounded: the total of days is at
    least the number of trips and at most 90 days per trip, and it never
    exceeds the length of the visa. *)
Theorem totals_are_bounded (start : date) (manual : option (date * date))
    (days : Z) (total_trips : nat) (total_days : Z) (df : list Row) :
  tab start manual days = Ret (Displayed total_trips total_days df) ->
  (1 <= total_trips)%nat /\
  Z.of_nat total_trips <= total_days <= 90 * Z.of_nat total_trips /\
  total_days <= days.
Proof.
  intros Htab. pose proof (tab_Displayed _ _ _ _ _ _ Htab) as (-> & -> & Hne).
  apply tab_rows_facts in Htab. simpl in Htab. destruct Htab as (Hch & Hall & _).
  destruct (sum_durations_window start (start + days - 1) df Hch Hall)
    as [Hsum Hhead].
  destruct df as [| a rest]; [now elim Hne |].
  specialize (Hhead a rest eq_refl).
  inversion Hall as [| ? ? Ha _]; subst. unfold stay_within in Ha.
  split; [simpl; lia |]. split; [exact Hsum | lia].
Qed.

Lemma totals_are_bounded_witness :
  let start := Calendar.ymd2ord 2025 1 1 in
  let a := mkRow Optimized 739252 739341 90 in
  tab start None 90 = Ret (Displayed 1 90 [a]) /\
  (1 <= 1)%nat /\ Z.of_nat 1 <= 90 <= 90 * Z.of_nat 1 /\ 90 <= 90.
Proof.
  intros start a.
  assert (H : tab start None 90 = Ret (Displayed 1 90 [a]))
    by (vm_compute; reflexivity).
  split; [exact H |].
  exact (totals_are_bounded start None 90 1 90 [a] H).
Defined.

(** ** Counting trips and days *)

Lemma trips_from_zero (visa_end entry : date) :
  trips_from visa_end entry = O -> entry > visa_end.
Proof.
  intros H. destruct (Z_le_gt_dec entry visa_end) as [Hle | Hgt]; [| exact Hgt].
  rewrite (trips_from_within _ _ Hle) in H. discriminate.
Qed.

Lemma trips_from_bounds (visa_end : date) : forall (n : nat) (entry : date),
  trips_from visa_end entry = S n ->
  entry + 180 * Z.of_nat n <= visa_end < entry + 180 * (Z.of_nat n + 1).
Proof.
  induction n as [| n IH]; intros entry Hn;
    apply trips_from_positive in Hn; destruct Hn as [Hle Hn].
  - apply trips_from_zero in Hn. lia.
  - apply IH in Hn. lia.
Qed.

Lemma length_auto_rows (visa_end : date) : forall (n : nat) (entry : date),
  List.length (auto_rows visa_end entry n) = n.
Proof. induction n as [| n IH]; intros entry; simpl; [| rewrite IH]; reflexivity. Qed.

Lemma sum_auto_rows (visa_end : date) : forall (n : nat) (entry : date),
  trips_from visa_end entry = S n ->
  sum_durations (auto_rows visa_end entry (S n)) =
  90 * Z.of_nat n + Z.min 90 (visa_end - entry - 180 * Z.of_nat n + 1).
Proof.
  induction n as [| n IH]; intros entry Hn;
    apply trips_from_positive in Hn; destruct Hn as [Hle Hn].
  - apply trips_from_zero in Hn. simpl. lia.
  - pose proof (trips_from_bounds _ _ _ Hn) as Hb.
    change (sum_durations (auto_rows visa_end entry (S (S n))))
      with (Z.min (entry + 89) visa_end - entry + 1
            + sum_durations (auto_rows visa_end (entry + 180) (S n))).
    rewrite (IH _ Hn). lia.
Qed.

(** Trips and days of the loop started at [entry], by division. *)
Lemma auto_rows_metrics (visa_end entry : date) :
  entry <= visa_end ->
  let q := (visa_end - entry) / 180 in
  exists rows,
    display (auto_rows visa_end entry (trips_from visa_end entry)) =
    Displayed (Z.to_nat (q + 1))
      (90 * q + Z.min 90 (visa_end - entry - 180 * q + 1)) rows.
Proof.
  intros Hle q.
  assert (Hq : 0 <= q) by (apply Z.div_pos; lia).
  assert (Htrips : trips_from visa_end entry = S (Z.to_nat q)).
  { unfold trips_from.
    replace (entry >? visa_end) with false
      by (symmetry; rewrite Z.gtb_ltb; apply Z.ltb_ge; lia).
    fold q. lia. }
  rewrite Htrips. eexists.
  change (display (auto_rows visa_end entry (S (Z.to_nat q))))
    with (Displayed (List.length (auto_rows visa_end entry (S (Z.to_nat q))))
            (sum_durations (auto_rows visa_end entry (S (Z.to_nat q))))
            (auto_rows visa_end entry (S (Z.to_nat q)))).
  rewrite length_auto_rows, (sum_auto_rows _ _ _ Htrips).
  rewrite Z2Nat.id by exact Hq.
  replace (Z.to_nat (q + 1)) with (S (Z.to_nat q)) by lia.
  reflexivity.
Qed.

Lemma tab_closed_form_plain (start : date) (manual : option (date * date))
    (days : Z) :
  valid_manual start manual = false ->
  tab_closed_form start manual days =
  display (auto_rows (start + days - 1) start
             (trips_from (start + days - 1) start)).
Proof.
  intros Hvm. unfold tab_closed_form.
  destruct manual as [[me mx] |]; [| reflexivity]. now rewrite Hvm.
Qed.

(** X8. Without a manual trip taken into account, a visa of [days >= 1] days
    gives one trip per started period of 180 days, 90 days for each full
    period and what is left of the visa, up to 90 days, for the last one:
    with [q = (days - 1) / 180], the tab shows [q + 1] trips and
    [90 * q + min 90 (days - 180 * q)] days. *)
Theorem trips_and_days_without_manual (start : date)
    (manual : option (date * date)) (days : Z) (r : tab_result) :
  valid_manual start manual = false -> 1 <= days ->
  tab start manual days = Ret r ->
  let q := (days - 1) / 180 in
  exists df, r = Displayed (Z.to_nat (q + 1))
                   (90 * q + Z.min 90 (days - 180 * q)) df.
Proof.
  intros Hvm Hdays Htab q. apply tab_closed_form_Ret in Htab. subst r.
  rewrite (tab_closed_form_plain _ _ _ Hvm).
  destruct (auto_rows_metrics (start + days - 1) start) as [rows Hrows]; [lia |].
  rewrite Hrows. exists rows.
  replace (start + days - 1 - start) with (days - 1) by lia. fold q.
  do 2 f_equal. lia.
Qed.

Lemma trips_and_days_without_manual_witness :
  let start := Calendar.ymd2ord 2025 1 1 in
  exists r df, tab start None 1825 = Ret r /\ r = Displayed 11 925 df.
Proof.
  intros start.
  destruct (tab start None 1825) as [r | |] eqn:Htab;
    [| vm_compute in Htab; discriminate | vm_compute in Htab; discriminate].
  destruct (trips_and_days_without_manual start None 1825 r eq_refl
              ltac:(lia) Htab) as [df Hdf].
  exists r, df. split; [reflexivity | exact Hdf].
Defined.

(** X9. Whatever the start date (within [datetime]'s range), the four tabs
    of the script, without a manual trip taken into account, show 1 trip and
    90 days, 3 trips and 185 days, 5 trips and 370 days, 11 trips and 925
    days. *)
Theorem four_tabs_without_manual (start : date) (manual : option (date * date))
    (v0 : vars) :
  valid_manual start manual = false ->
  in_range start 1825 = true ->
  map (fun x => (fst x, metrics (snd x))) (calculation start manual v0 validities) =
  [("3 months", Some (1%nat, 90)); ("1 year", Some (3%nat, 185));
   ("2 years", Some (5%nat, 370)); ("5 years", Some (11%nat, 925))]%string.
Proof.
  intros Hvm Hrange.
  assert (Htab : forall days, 1 <= days <= 1825 ->
    exists df, tab start manual days =
               Ret (Displayed (Z.to_nat ((days - 1) / 180 + 1))
                      (90 * ((days - 1) / 180)
                       + Z.min 90 (days - 180 * ((days - 1) / 180))) df)).
  { intros days Hdays.
    destruct (tab_in_range start manual days) as [r Hr].
    - apply in_range_spec in Hrange. apply in_range_spec.
      unfold MINORDINAL in *. lia.
    - apply tab_closed_form_Ret in Hr as Heq. subst r.
      rewrite (tab_closed_form_plain _ _ _ Hvm) in Hr.
      destruct (auto_rows_metrics (start + days - 1) start) as [rows Hrows];
        [lia |].
      rewrite Hrows in Hr. exists rows. rewrite Hr.
      replace (start + days - 1 - start) with (days - 1) by lia.
      do 3 f_equal. lia. }
  unfold calculation. rewrite for_tabs_until_abort. unfold validities.
  destruct (Htab 90 ltac:(lia)) as [df1 H1].
  destruct (Htab 365 ltac:(lia)) as [df2 H2].
  destruct (Htab 730 ltac:(lia)) as [df3 H3].
  destruct (Htab 1825 ltac:(lia)) as [df4 H4].
  cbn [map fst snd]. rewrite H1, H2, H3, H4. reflexivity.
Qed.

Lemma four_tabs_without_manual_witness :
  let start := Calendar.ymd2ord 2026 11 4 in
  map (fun x => (fst x, metrics (snd x)))
    (calculation start None (mkVars start []) validities) =
  [("3 months", Some (1%nat, 90)); ("1 year", Some (3%nat, 185));
   ("2 years", Some (5%nat, 370)); ("5 years", Some (11%nat, 925))]%string.
Proof.
  intros start.
  apply (four_tabs_without_manual start None (mkVars start []));
    reflexivity.
Defined.

(** ** Moving the dates *)

Lemma trips_from_shift (d visa_end entry : Z) :
  trips_from (visa_end + d) (entry + d) = trips_from visa_end entry.
Proof.
  unfold trips_from.
  replace (visa_end + d - (entry + d)) with (visa_end - entry) by lia.
  replace (entry + d >? visa_end + d) with (entry >? visa_end); [reflexivity |].
  rewrite !Z.gtb_ltb.
  destruct (visa_end <? entry) eqn:H; symmetry;
    [apply Z.ltb_lt in H; apply Z.ltb_lt | apply Z.ltb_ge in H; apply Z.ltb_ge];
    lia.
Qed.

Lemma auto_rows_shift (d visa_end : Z) : forall (n : nat) (entry : date),
  auto_rows (visa_end + d) (entry + d) n =
  map (shift_row d) (auto_rows visa_end entry n).
Proof.
  induction n as [| n IH]; intros entry; [reflexivity |].
  simpl. unfold shift_row at 1. simpl.
  replace (Z.min (entry + d + 89) (visa_end + d))
    with (Z.min (entry + 89) visa_end + d) by lia.
  replace (entry + d + 180) with (entry + 180 + d) by lia.
  rewrite IH. f_equal. f_equal. lia.
Qed.

Lemma valid_manual_shift (d : Z) (start : date) (manual : option (date * date)) :
  valid_manual (start + d) (shift_manual d manual) = valid_manual start manual.
Proof.
  destruct manual as [[me mx] |]; [| reflexivity].
  change (valid_manual (start + d) (Some (me + d, mx + d)) =
          valid_manual start (Some (me, mx))).
  destruct (valid_manual start (Some (me, mx))) eqn:H;
    destruct (valid_manual (start + d) (Some (me + d, mx + d))) eqn:Hd;
    try reflexivity.
  - apply valid_manual_true in H. unfold manual_duration in H.
    rewrite <- Hd. apply valid_manual_true.
    unfold manual_duration. lia.
  - apply valid_manual_true in Hd. unfold manual_duration in Hd.
    rewrite <- H. symmetry. apply valid_manual_true.
    unfold manual_duration. lia.
Qed.

Lemma sum_durations_shift (d : Z) (rows : list Row) :
  sum_durations (map (shift_row d) rows) = sum_durations rows.
Proof. induction rows as [| a rest IH]; simpl; [| rewrite IH]; reflexivity. Qed.

Lemma display_shift (d : Z) (rows : list Row) :
  display (map (shift_row d) rows) = shift_result d (display rows).
Proof.
  destruct rows as [| a rest]; [reflexivity |].
  change (display (map (shift_row d) (a :: rest)))
    with (Displayed (List.length (map (shift_row d) (a :: rest)))
            (sum_durations (map (shift_row d) (a :: rest)))
            (map (shift_row d) (a :: rest))).
  now rewrite length_map, sum_durations_shift.
Qed.

Lemma tab_closed_form_shift (d : Z) (start : date)
    (manual : option (date * date)) (days : Z) :
  tab_closed_form (start + d) (shift_manual d manual) days =
  shift_result d (tab_closed_form start manual days).
Proof.
  unfold tab_closed_form. rewrite valid_manual_shift.
  replace (start + d + days - 1) with (start + days - 1 + d) by lia.
  assert (Hauto : forall entry,
    display (auto_rows (start + days - 1 + d) (entry + d)
               (trips_from (start + days - 1 + d) (entry + d))) =
    shift_result d (display (auto_rows (start + days - 1) entry
                               (trips_from (start + days - 1) entry)))).
  { intros entry. now rewrite trips_from_shift, auto_rows_shift, display_shift. }
  destruct manual as [[me mx] |]; simpl shift_manual; cbv iota beta;
    [| apply Hauto].
  destruct (valid_manual start (Some (me, mx))); [| apply Hauto].
  replace (mx + d >? start + days - 1 + d) with (mx >? start + days - 1).
  - destruct (mx >? start + days - 1); [reflexivity |].
    replace (mx + d + 91) with (mx + 91 + d) by lia.
    rewrite trips_from_shift, auto_rows_shift.
    change (manual_row (me + d) (mx + d)
            :: map (shift_row d)
                 (auto_rows (start + days - 1) (mx + 91)
                    (trips_from (start + days - 1) (mx + 91))))
      with (mkRow Manual (me + d) (mx + d) (mx + d - (me + d) + 1)
            :: map (shift_row d)
                 (auto_rows (start + days - 1) (mx + 91)
                    (trips_from (start + days - 1) (mx + 91)))).
    replace (mx + d - (me + d) + 1) with (mx - me + 1) by lia.
    apply (display_shift d (manual_row me mx :: _)).
  - rewrite !Z.gtb_ltb.
    destruct (start + days - 1 <? mx) eqn:H; symmetry;
      [apply Z.ltb_lt in H; apply Z.ltb_lt | apply Z.ltb_ge in H; apply Z.ltb_ge];
      lia.
Qed.

(** X10. The schedule moves with the dates: when the visa start and the
    manual trip are moved by [d] days, every tab shows the same rows moved by
    [d] days, with the same kinds and durations, hence the same trips and
    days totals. *)
Theorem schedule_moves_with_dates (d : Z) (start : date)
    (manual : option (date * date)) (days : Z) (r r' : tab_result) :
  tab start manual days = Ret r ->
  tab (start + d) (shift_manual d manual) days = Ret r' ->
  r' = shift_result d r.
Proof.
  intros Hr Hr'. apply tab_closed_form_Ret in Hr, Hr'. subst r r'.
  apply tab_closed_form_shift.
Qed.

Lemma schedule_moves_with_dates_witness :
  let start := Calendar.ymd2ord 2025 1 1 in
  let manual := Some (Calendar.ymd2ord 2025 1 1, Calendar.ymd2ord 2025 1 15) in
  exists r r',
    tab start manual 365 = Ret r /\
    tab (start + 500) (shift_manual 500 manual) 365 = Ret r' /\
    r' = shift_result 500 r.
Proof.
  intros start manual.
  destruct (tab start manual 365) as [r | |] eqn:Hr;
    [| vm_compute in Hr; discriminate | vm_compute in Hr; discriminate].
  destruct (tab (start + 500) (shift_manual 500 manual) 365) as [r' | |] eqn:Hr';
    [| vm_compute in Hr'; discriminate | vm_compute in Hr'; discriminate].
  exists r, r'. split; [reflexivity |]. split; [reflexivity |].
  exact (schedule_moves_with_dates 500 start manual 365 r r' Hr Hr').
Defined.

(** ** Longer visas *)

Lemma auto_rows_sum_positive (visa_end entry : date) :
  0 <= sum_durations (auto_rows visa_end entry (trips_from visa_end entry)).
Proof.
  destruct (trips_from visa_end entry) as [| n] eqn:Hn; [simpl; lia |].
  rewrite (sum_auto_rows _ _ _ Hn). apply trips_from_bounds in Hn. lia.
Qed.

Lemma auto_rows_mono (visa_end visa_end' entry : date) :
  visa_end <= visa_end' ->
  (trips_from visa_end entry <= trips_from visa_end' entry)%nat /\
  sum_durations (auto_rows visa_end entry (trips_from visa_end entry)) <=
  sum_durations (auto_rows visa_end' entry (trips_from visa_end' entry)).
Proof.
  intros Hle.
  pose proof (auto_rows_sum_positive visa_end' entry) as Hpos.
  destruct (trips_from visa_end entry) as [| n] eqn:Hn; [simpl; lia |].
  destruct (trips_from visa_end' entry) as [| n'] eqn:Hn'.
  - apply trips_from_zero in Hn'. apply trips_from_bounds in Hn. lia.
  - rewrite (sum_auto_rows _ _ _ Hn), (sum_auto_rows _ _ _ Hn').
    apply trips_from_bounds in Hn, Hn'. lia.
Qed.

(** X11. A longer visa never gives less: for the same start date and manual
    trip, the tab of a longer window shows at least as many trips and at
    least as many days as the tab of a shorter one. *)
Theorem longer_visa_never_gives_less (start : date)
    (manual : option (date * date)) (days days' : Z) (r r' : tab_result) :
  days <= days' ->
  tab start manual days = Ret r ->
  tab start manual days' = Ret r' ->
  (List.length (rows_of r) <= List.length (rows_of r'))%nat /\
  sum_durations (rows_of r) <= sum_durations (rows_of r').
Proof.
  intros Hle Hr Hr'. apply tab_closed_form_Ret in Hr, Hr'. subst r r'.
  unfold tab_closed_form.
  set (ve := start + days - 1). set (ve' := start + days' - 1).
  assert (Hve : ve <= ve') by (unfold ve, ve'; lia).
  assert (Hplain : forall entry,
    (List.length (rows_of (display (auto_rows ve entry (trips_from ve entry))))
     <= List.length (rows_of (display (auto_rows ve' entry (trips_from ve' entry)))))%nat
    /\ sum_durations (rows_of (display (auto_rows ve entry (trips_from ve entry))))
       <= sum_durations
            (rows_of (display (auto_rows ve' entry (trips_from ve' entry))))).
  { intros entry. rewrite !rows_of_display, !length_auto_rows.
    now apply auto_rows_mono. }
  destruct manual as [[me mx] |]; [| apply Hplain].
  destruct (valid_manual start (Some (me, mx))) eqn:Hvm; [| apply Hplain].
  apply valid_manual_true in Hvm. unfold manual_duration in Hvm.
  destruct (mx >? ve) eqn:Hfit.
  - simpl rows_of at 1 3. simpl List.length at 1. simpl sum_durations at 1.
    split; [lia |].
    destruct (mx >? ve'); [simpl; lia |].
    rewrite rows_of_display. simpl.
    pose proof (auto_rows_sum_positive ve' (mx + 91)). unfold manual_duration. lia.
  - rewrite Z.gtb_ltb in Hfit. apply Z.ltb_ge in Hfit.
    replace (mx >? ve') with false
      by (symmetry; rewrite Z.gtb_ltb; apply Z.ltb_ge; lia).
    rewrite !rows_of_display. simpl. rewrite !length_auto_rows.
    destruct (auto_rows_mono ve ve' (mx + 91) Hve) as [Hn Hsum].
    split; lia.
Qed.

Lemma longer_visa_never_gives_less_witness :
  let start := Calendar.ymd2ord 2025 1 1 in
  exists r r',
    90 <= 365 /\ tab start None 90 = Ret r /\ tab start None 365 = Ret r' /\
    (List.length (rows_of r) <= List.length (rows_of r'))%nat /\
    sum_durations (rows_of r) <= sum_durations (rows_of r').
Proof.
  intros start.
  destruct (tab start None 90) as [r | |] eqn:Hr;
    [| vm_compute in Hr; discriminate | vm_compute in Hr; discriminate].
  destruct (tab start None 365) as [r' | |] eqn:Hr';
    [| vm_compute in Hr'; discriminate | vm_compute in Hr'; discriminate].
  exists r, r'. split; [lia |]. split; [reflexivity |]. split; [reflexivity |].
  exact (longer_visa_never_gives_less start None 90 365 r r' ltac:(lia) Hr Hr').
Defined.

(** ** Which branch a tab takes *)

Lemma display_NoTravel (rows : list Row) : display rows = NoTravel <-> rows = [].
Proof. destruct rows; simpl; split; intros H; try reflexivity; discriminate. Qed.

Lemma display_not_Skipped (rows : list Row) (visa_end : date) :
  display rows <> Skipped visa_end.
Proof. destruct rows; discriminate. Qed.

Lemma auto_rows_nil (visa_end entry : date) :
  auto_rows visa_end entry (trips_from visa_end entry) = [] <-> entry > visa_end.
Proof.
  split; intros H.
  - apply trips_from_zero.
    destruct (trips_from visa_end entry); [reflexivity | discriminate].
  - now rewrite trips_from_past.
Qed.

(** X12. The three things a tab can show, by case: the warning that the
    planned trip ends after the visa expires appears exactly when the manual
    trip is valid and exits after the window's last day, and it names that
    day; "No travel periods possible" appears exactly when no valid manual
    trip is there and the window has no day at all ([days <= 0]), which none
    of the script's four windows has; in every other case the tab shows its
    totals and a table of at least one row. *)
Theorem tab_branches (start : date) (manual : option (date * date)) (days : Z)
    (r : tab_result) :
  tab start manual days = Ret r ->
  (forall visa_end, r = Skipped visa_end <->
     visa_end = start + days - 1 /\
     exists me mx, manual = Some (me, mx) /\
                   valid_manual start manual = true /\ mx > visa_end) /\
  (r = NoTravel <-> valid_manual start manual = false /\ days <= 0) /\
  (rows_of r <> [] <->
   (valid_manual start manual = false /\ 1 <= days) \/
   (exists me mx, manual = Some (me, mx) /\
                  valid_manual start manual = true /\ mx <= start + days - 1)).
Proof.
  intros Htab. apply tab_closed_form_Ret in Htab. subst r.
  unfold tab_closed_form. set (ve := start + days - 1).
  assert (Hplain : valid_manual start manual = false ->
    let r := display (auto_rows ve start (trips_from ve start)) in
    (forall visa_end, r = Skipped visa_end <->
       visa_end = ve /\
       exists me mx, manual = Some (me, mx) /\
                     valid_manual start manual = true /\ mx > visa_end) /\
    (r = NoTravel <-> valid_manual start manual = false /\ days <= 0) /\
    (rows_of r <> [] <->
     (valid_manual start manual = false /\ 1 <= days) \/
     (exists me mx, manual = Some (me, mx) /\
                    valid_manual start manual = true /\ mx <= ve))).
  { intros Hvm r. unfold r. rewrite rows_of_display, display_NoTravel.
    pose proof (auto_rows_nil ve start) as Hnil. unfold ve in Hnil.
    split; [| split].
    - intros visa_end. split.
      + intros H. now apply display_not_Skipped in H.
      + intros (_ & me & mx & _ & Hvalid & _). congruence.
    - split.
      + intros H. split; [exact Hvm |]. apply Hnil in H. lia.
      + intros [_ Hdays]. apply Hnil. lia.
    - split.
      + intros Hne. left. split; [exact Hvm |].
        destruct (Z_le_gt_dec 1 days) as [Hd | Hd]; [exact Hd |].
        elim Hne. apply Hnil. lia.
      + intros [[_ Hdays] | (me & mx & _ & Hvalid & _)] Hempty; [| congruence].
        apply Hnil in Hempty. lia. }
  destruct manual as [[me mx] |]; [| now apply Hplain].
  destruct (valid_manual start (Some (me, mx))) eqn:Hvm; [| now apply Hplain].
  clear Hplain.
  destruct (mx >? ve) eqn:Hfit.
  - apply Z.gtb_lt in Hfit. split; [| split].
    + intros visa_end. split.
      * intros H. inversion H; subst. split; [reflexivity |].
        exists me, mx. repeat split. lia.
      * intros [-> _]. reflexivity.
    + split; [discriminate | intros [H _]; discriminate].
    + split.
      * intros H. now elim H.
      * intros [[H _] | (me' & mx' & Heq & _ & Hle)] _; [discriminate |].
        inversion Heq; subst. unfold ve in Hfit. lia.
  - rewrite Z.gtb_ltb in Hfit. apply Z.ltb_ge in Hfit. split; [| split].
    + intros visa_end. split.
      * intros H. now apply display_not_Skipped in H.
      * intros (-> & me' & mx' & Heq & _ & Hgt). inversion Heq; subst.
        unfold ve in Hfit. lia.
    + split; [discriminate | intros [H _]; discriminate].
    + split.
      * intros _. right. exists me, mx. now repeat split.
      * intros _. rewrite rows_of_display. discriminate.
Qed.

Lemma tab_branches_witness :
  let start := Calendar.ymd2ord 2025 1 1 in
  let manual := Some (Calendar.ymd2ord 2025 3 1, Calendar.ymd2ord 2025 4 15) in
  tab start manual 90 = Ret (Skipped (start + 90 - 1)) /\
  exists me mx, manual = Some (me, mx) /\
                valid_manual start manual = true /\ mx > start + 90 - 1.
Proof.
  intros start manual.
  assert (H : tab start manual 90 = Ret (Skipped (start + 90 - 1)))
    by (vm_compute; reflexivity).
  split; [exact H |].
  apply (proj1 (proj1 (tab_branches start manual 90 _ H) (start + 90 - 1))
           eq_refl).
Defined.

(** ** The messages of the validation *)

(** X13. Which message the validation shows, and when: "entry before visa
    start" whenever the entry precedes the start, whatever the exit; "exit
    before entry" only for an entry on or after the start; "too long" only
    for a well-ordered trip, with the offending length, always above 90; the
    success message exactly for the trips the calculation accepts, with a
    length between 1 and 90. *)
Theorem validation_messages (start manual_entry manual_exit : date) :
  let fb := fst (validate start manual_entry manual_exit) in
  let d := (manual_exit - manual_entry) + 1 in
  (fb = EntryBeforeStart <-> manual_entry < start) /\
  (fb = ExitBeforeEntry <-> start <= manual_entry /\ manual_exit < manual_entry) /\
  (forall n, fb = TooLong n <->
     start <= manual_entry /\ manual_entry <= manual_exit /\ n = d /\ 90 < n) /\
  (forall n, fb = Recorded n <->
     valid_manual start (Some (manual_entry, manual_exit)) = true /\ n = d) /\
  (forall n, fb = Recorded n -> 1 <= n <= 90).
Proof.
  intros fb d. unfold fb, d, valid_manual, validate, manual_duration.
  destruct (manual_entry <? start) eqn:H1;
    [apply Z.ltb_lt in H1 | apply Z.ltb_ge in H1]; simpl.
  { split; [| split; [| split; [| split]]].
    - split; [intros _; exact H1 | reflexivity].
    - split; [discriminate | lia].
    - intros n. split; [discriminate | lia].
    - intros n. split; [discriminate | intros [H _]; discriminate].
    - discriminate. }
  destruct (manual_exit <? manual_entry) eqn:H2;
    [apply Z.ltb_lt in H2 | apply Z.ltb_ge in H2]; simpl.
  { split; [| split; [| split; [| split]]].
    - split; [discriminate | lia].
    - split; [intros _; split; assumption | reflexivity].
    - intros n. split; [discriminate | lia].
    - intros n. split; [discriminate | intros [H _]; discriminate].
    - discriminate. }
  destruct (manual_exit - manual_entry + 1 >? 90) eqn:H3; simpl;
    [apply Z.gtb_lt in H3 | rewrite Z.gtb_ltb in H3; apply Z.ltb_ge in H3].
  - split; [| split; [| split; [| split]]].
    + split; [discriminate | lia].
    + split; [discriminate | lia].
    + intros n. split.
      * intros H. inversion H; subst. lia.
      * intros (_ & _ & -> & _). reflexivity.
    + intros n. split; [discriminate | intros [H _]; discriminate].
    + discriminate.
  - split; [| split; [| split; [| split]]].
    + split; [discriminate | lia].
    + split; [discriminate | lia].
    + intros n. split; [discriminate | lia].
    + intros n. split.
      * intros H. inversion H; subst. split; reflexivity.
      * intros [_ ->]. reflexivity.
    + intros n H. inversion H; subst. lia.
Qed.

Lemma validation_messages_witness :
  let start := Calendar.ymd2ord 2025 1 1 in
  let manual_entry := Calendar.ymd2ord 2024 12 25 in
  let manual_exit := Calendar.ymd2ord 2024 12 20 in
  manual_entry < start /\
  fst (validate start manual_entry manual_exit) = EntryBeforeStart.
Proof.
  intros start manual_entry manual_exit.
  assert (H : manual_entry < start) by reflexivity.
  split; [exact H |].
  apply (proj2 (proj1 (validation_messages start manual_entry manual_exit)) H).
Defined.

(** ** The default first trip *)

(** X14. The trip the two date widgets propose by default (entry on the visa
    start, exit 15 days later) is accepted by the validation as a trip of 16
    days, both ends counting, and it is the first row of every tab whose
    window has at least 16 days: no such tab is skipped. *)
Theorem default_first_trip_is_accepted (start manual_entry manual_exit : date) :
  default_manual start = Ret (manual_entry, manual_exit) ->
  validate start manual_entry manual_exit = (Recorded 16, true) /\
  forall days r,
    16 <= days ->
    tab start (Some (manual_entry, manual_exit)) days = Ret r ->
    exists total_trips total_days rest,
      r = Displayed total_trips total_days
            (mkRow Manual start (start + 15) 16 :: rest).
Proof.
  unfold default_manual. intros Hdef.
  destruct (add_days start 15) as [x | |] eqn:Hx; simpl in Hdef;
    try discriminate.
  inversion Hdef; subst. apply add_days_Ret in Hx. destruct Hx as [-> _].
  assert (Hvalidate : validate manual_entry manual_entry (manual_entry + 15) =
                      (Recorded 16, true)).
  { unfold validate, manual_duration.
    rewrite Z.ltb_irrefl.
    replace (manual_entry + 15 <? manual_entry) with false
      by (symmetry; apply Z.ltb_ge; lia).
    replace (manual_entry + 15 - manual_entry + 1) with 16 by lia.
    reflexivity. }
  split; [exact Hvalidate |].
  intros days r Hdays Htab. apply tab_closed_form_Ret in Htab. subst r.
  unfold tab_closed_form, valid_manual. rewrite Hvalidate. simpl snd.
  replace (manual_entry + 15 >? manual_entry + days - 1) with false
    by (symmetry; rewrite Z.gtb_ltb; apply Z.ltb_ge; lia).
  unfold manual_row, manual_duration.
  replace (manual_entry + 15 - manual_entry + 1) with 16 by lia.
  simpl. now do 3 eexists.
Qed.

Lemma default_first_trip_is_accepted_witness :
  let start := Calendar.ymd2ord 2025 1 1 in
  default_manual start = Ret (start, Calendar.ymd2ord 2025 1 16) /\
  validate start start (Calendar.ymd2ord 2025 1 16) = (Recorded 16, true).
Proof.
  intros start.
  assert (H : default_manual start = Ret (start, Calendar.ymd2ord 2025 1 16))
    by (vm_compute; reflexivity).
  split; [exact H |].
  apply (default_first_trip_is_accepted start start (Calendar.ymd2ord 2025 1 16) H).
Defined.

(** ** The order of the tabs *)

Lemma tab_no_timeout (start : date) (manual : option (date * date)) (days : Z) :
  tab start manual days <> Timeout.
Proof.
  unfold tab, omap, tab_body.
  destruct (add_days start days) as [t | |] eqn:Ht; simpl;
    [| discriminate | now apply add_days_no_timeout in Ht].
  destruct (add_days t (-1)) as [ve | |] eqn:Hve; simpl;
    [| discriminate | now apply add_days_no_timeout in Hve].
  assert (Hrest : forall u,
    (x <- (v' <- while_true (enough_fuel ve u) ve u ;;
           Ret (v', display (stays v'))) ;; Ret (snd x)) <> Timeout).
  { intros u.
    pose proof (while_true_no_timeout ve (enough_fuel ve u) u) as Hloop.
    destruct (while_true (enough_fuel ve u) ve u); simpl;
      [discriminate | discriminate |].
    intros _. apply Hloop; [unfold enough_fuel; lia | reflexivity]. }
  destruct manual as [[me mx] |]; [| apply Hrest].
  destruct (valid_manual start (Some (me, mx))); [| apply Hrest].
  destruct (mx >? ve); [discriminate |].
  destruct (add_days mx 91) as [c | |] eqn:Hc; simpl;
    [apply Hrest | discriminate | now apply add_days_no_timeout in Hc].
Qed.

Lemma until_abort_nth {A : Type} (l : list (string * outcome A)) :
  forall (i : nat) (x : string * outcome A),
    nth_error (until_abort l) i = Some x ->
    nth_error l i = Some x /\
    forall j y, (j < i)%nat -> nth_error (until_abort l) j = Some y ->
                exists r, snd y = Ret r.
Proof.
  induction l as [| [label o] rest IH]; intros i x Hx.
  - destruct i; discriminate.
  - destruct o as [r | e |].
    + destruct i as [| i]; simpl in Hx.
      * split; [exact Hx | intros j y Hj; lia].
      * destruct (IH i x Hx) as [Hnth Hbefore]. split; [exact Hnth |].
        intros [| j] y Hj Hy; simpl in Hy.
        -- inversion Hy; subst. now exists r.
        -- apply (Hbefore j y); [lia | exact Hy].
    + destruct i as [| i]; simpl in Hx;
        [split; [exact Hx | intros j y Hj; lia] | destruct i; discriminate].
    + destruct i as [| i]; simpl in Hx;
        [split; [exact Hx | intros j y Hj; lia] | destruct i; discriminate].
Qed.

Lemma until_abort_missing {A : Type} (l : list (string * outcome A)) :
  forall (i : nat) (x : string * outcome A),
    nth_error l i = Some x -> nth_error (until_abort l) i = None ->
    exists j y, (j < i)%nat /\ nth_error (until_abort l) j = Some y /\
                forall r, snd y <> Ret r.
Proof.
  induction l as [| [label o] rest IH]; intros i x Hx Hnone.
  - destruct i; discriminate.
  - destruct o as [r | e |].
    + destruct i as [| i]; simpl in Hnone; [discriminate |].
      simpl in Hx. destruct (IH i x Hx Hnone) as (j & y & Hj & Hy & Hraise).
      exists (S j), y. split; [lia |]. split; [exact Hy | exact Hraise].
    + destruct i as [| i]; simpl in Hnone; [discriminate |].
      exists 0%nat, (label, Raise e). split; [lia |].
      split; [reflexivity | discriminate].
    + destruct i as [| i]; simpl in Hnone; [discriminate |].
      exists 0%nat, (label, Timeout). split; [lia |].
      split; [reflexivity | discriminate].
Qed.

(** X15. The tabs are shown in the order of the windows: the i-th entry of
    the calculation is the i-th window's tab, under its label, and every tab
    before it returned; a window has no entry only if a tab before it raised
    [OverflowError], which ended the run. *)
Theorem tabs_in_window_order (start : date) (manual : option (date * date))
    (v0 : vars) (windows : list (string * Z)) (i : nat) :
  let out := calculation start manual v0 windows in
  (forall label o, nth_error out i = Some (label, o) ->
     (exists days, nth_error windows i = Some (label, days) /\
                   o = tab start manual days) /\
     (forall j label' o', (j < i)%nat -> nth_error out j = Some (label', o') ->
                          exists r, o' = Ret r)) /\
  (forall w, nth_error windows i = Some w -> nth_error out i = None ->
     exists j label, (j < i)%nat /\
                     nth_error out j = Some (label, Raise OverflowError)).
Proof.
  intros out. unfold out, calculation. rewrite for_tabs_until_abort.
  set (tabs := map (fun w => (fst w, tab start manual (snd w))) windows).
  split.
  - intros label o Hnth. apply until_abort_nth in Hnth.
    destruct Hnth as [Hnth Hbefore]. split.
    + unfold tabs in Hnth. rewrite nth_error_map in Hnth.
      destruct (nth_error windows i) as [[label' days] |]; [| discriminate].
      simpl in Hnth. inversion Hnth; subst. now exists days.
    + intros j label' o' Hj Ho'. apply (Hbefore j (label', o') Hj Ho').
  - intros w Hw Hnone.
    destruct (until_abort_missing tabs i (fst w, tab start manual (snd w)))
      as (j & [label o] & Hj & Hy & Hraise).
    + unfold tabs. rewrite nth_error_map, Hw. reflexivity.
    + exact Hnone.
    + exists j, label. split; [exact Hj |]. rewrite Hy.
      destruct (until_abort_nth tabs j _ Hy) as [Hin _].
      unfold tabs in Hin. rewrite nth_error_map in Hin.
      destruct (nth_error windows j) as [[label' days] |]; [| discriminate].
      simpl in Hin. inversion Hin; subst. simpl in Hraise.
      destruct (tab start manual days) as [r | [] |] eqn:Htab.
      * now elim (Hraise r).
      * reflexivity.
      * now apply tab_no_timeout in Htab.
Qed.

(** A visa that starts on 9999-12-01: the 3-month window already ends
    after 9999-12-31, so its tab raises and the 1-year tab is never
    reached. *)
Lemma tabs_in_window_order_witness :
  let start := Calendar.ymd2ord 9999 12 1 in
  nth_error validities 1 = Some ("1 year"%string, 365) /\
  nth_error (calculation start None (mkVars start []) validities) 1 = None /\
  exists j label, (j < 1)%nat /\
    nth_error (calculation start None (mkVars start []) validities) j =
    Some (label, Raise OverflowError).
Proof.
  intros start.
  assert (Hw : nth_error validities 1 = Some ("1 year"%string, 365))
    by reflexivity.
  assert (Hnone : nth_error (calculation start None (mkVars start []) validities) 1
                  = None) by (vm_compute; reflexivity).
  split; [exact Hw |]. split; [exact Hnone |].
  exact (proj2 (tabs_in_window_order start None (mkVars start []) validities 1)
           _ Hw Hnone).
Defined.

(** ** The price of a fixed first trip *)

(** X16. A fixed first trip never gains days: for the same visa, the total
    of days of the schedule built around a valid manual trip is at most the
    total of the schedule built without one. *)
Theorem manual_trip_never_gains_days (start manual_entry manual_exit : date)
    (days : Z) (r r0 : tab_result) :
  valid_manual start (Some (manual_entry, manual_exit)) = true ->
  tab start (Some (manual_entry, manual_exit)) days = Ret r ->
  tab start None days = Ret r0 ->
  sum_durations (rows_of r) <= sum_durations (rows_of r0).
Proof.
  intros Hvm Hr Hr0. apply tab_closed_form_Ret in Hr, Hr0. subst r r0.
  unfold tab_closed_form. rewrite Hvm. set (ve := start + days - 1).
  rewrite rows_of_display.
  pose proof (auto_rows_sum_positive ve start) as Hpos.
  destruct (manual_exit >? ve) eqn:Hfit; [simpl; lia |].
  rewrite Z.gtb_ltb in Hfit. apply Z.ltb_ge in Hfit.
  apply valid_manual_true in Hvm. unfold manual_duration in Hvm.
  rewrite rows_of_display.
  change (sum_durations (manual_row manual_entry manual_exit
            :: auto_rows ve (manual_exit + 91) (trips_from ve (manual_exit + 91))))
    with (manual_exit - manual_entry + 1
          + sum_durations (auto_rows ve (manual_exit + 91)
                             (trips_from ve (manual_exit + 91)))).
  destruct (trips_from ve start) as [| n] eqn:Hn;
    [apply trips_from_zero in Hn; lia |].
  rewrite (sum_auto_rows _ _ _ Hn). apply trips_from_bounds in Hn.
  destruct (trips_from ve (manual_exit + 91)) as [| n'] eqn:Hn'.
  - apply trips_from_zero in Hn'. cbn [auto_rows sum_durations fold_right]. lia.
  - rewrite (sum_auto_rows _ _ _ Hn'). apply trips_from_bounds in Hn'. lia.
Qed.

Lemma manual_trip_never_gains_days_witness :
  let start := Calendar.ymd2ord 2025 1 1 in
  let manual_entry := Calendar.ymd2ord 2025 3 1 in
  let manual_exit := Calendar.ymd2ord 2025 4 15 in
  exists r r0,
    valid_manual start (Some (manual_entry, manual_exit)) = true /\
    tab start (Some (manual_entry, manual_exit)) 365 = Ret r /\
    tab start None 365 = Ret r0 /\
    sum_durations (rows_of r) = 136 /\ sum_durations (rows_of r0) = 185 /\
    sum_durations (rows_of r) <= sum_durations (rows_of r0).
Proof.
  intros start manual_entry manual_exit.
  assert (Hvm : valid_manual start (Some (manual_entry, manual_exit)) = true)
    by reflexivity.
  destruct (tab start (Some (manual_entry, manual_exit)) 365) as [r | |] eqn:Hr;
    [| vm_compute in Hr; discriminate | vm_compute in Hr; discriminate].
  destruct (tab start None 365) as [r0 | |] eqn:Hr0;
    [| vm_compute in Hr0; discriminate | vm_compute in Hr0; discriminate].
  exists r, r0. split; [exact Hvm |]. split; [reflexivity |].
  split; [reflexivity |].
  pose proof (manual_trip_never_gains_days start manual_entry manual_exit 365
                r r0 Hvm Hr Hr0) as Hle.
  vm_compute in Hr, Hr0. inversion Hr; inversion Hr0; subst.
  split; [reflexivity |]. split; [reflexivity | exact Hle].
Defined.
